(** * ib_insync.ibcontroller: IBC, IBController and Watchdog

    A shallow embedding of [src/ib_insync/ibcontroller.py].  The three
    classes are stateful and talk to the operating system, to asyncio and to
    the IB client; methods are embedded as computations in a state and
    exception monad over the object ([self]) and a [world] that holds the
    effect trace, the process table, the event loop and the environment. *)

From Stdlib Require Import List String Ascii Bool Arith ZArith Lia.
From Stdlib Require Import DecimalString.
Import ListNotations.

Local Open Scope string_scope.
Local Open Scope list_scope.
Local Open Scope Z_scope.

Set Implicit Arguments.

(* ================================================================== *)
(** ** Python values used by the module *)

Module Py.

(** The attribute values the controllers are configured with: [None],
    booleans, integers and strings. *)
Inductive pyval : Type :=
| PyNone
| PyBool (b : bool)
| PyInt (z : Z)
| PyStr (s : string).

(** Truth value testing, as [if v:] does it. *)
Definition truthy (v : pyval) : bool :=
  match v with
  | PyNone => false
  | PyBool b => b
  | PyInt z => negb (z =? 0)
  | PyStr s => negb (String.eqb s "")
  end.

(** [str(v)], which is also what an f-string field [{v}] formats to. *)
Definition str (v : pyval) : string :=
  match v with
  | PyNone => "None"
  | PyBool true => "True"
  | PyBool false => "False"
  | PyInt z => NilZero.string_of_int (Z.to_int z)
  | PyStr s => s
  end.

(** [s.endswith(suffix)]. *)
Definition endswith (s suffix : string) : bool :=
  String.eqb
    (substring (String.length s - String.length suffix)
               (String.length suffix) s)
    suffix.

(** [sep.join(l)]. *)
Fixpoint join (sep : string) (l : list string) : string :=
  match l with
  | [] => ""
  | [x] => x
  | x :: rest => (x ++ sep ++ join sep rest)%string
  end.

(** Truth value of an attribute that holds an object or [None]. *)
Definition is_set {A : Type} (o : option A) : bool :=
  match o with Some _ => true | None => false end.


(** *** bytes *)

Definition bytes : Type := list Z.

(** [bytes.strip()] removes ASCII whitespace at both ends. *)
Definition is_space (b : Z) : bool :=
  (b =? 32) || (b =? 9) || (b =? 10) || (b =? 13) || (b =? 11) || (b =? 12).

Fixpoint lstrip (l : bytes) : bytes :=
  match l with
  | b :: rest => if is_space b then lstrip rest else l
  | [] => []
  end.

Definition strip (l : bytes) : bytes := rev (lstrip (rev (lstrip l))).

Definition in_range (lo hi b : Z) : bool := (lo <=? b) && (b <=? hi).

(** Well-formed UTF-8, as the strict decoder accepts it: shortest form,
    no surrogates, nothing above U+10FFFF. *)
Fixpoint utf8_valid (fuel : nat) (l : bytes) : bool :=
  match fuel with
  | O => match l with [] => true | _ => false end
  | S fuel' =>
    match l with
    | [] => true
    | b0 :: r0 =>
      if in_range 0 127 b0 then utf8_valid fuel' r0
      else match r0 with
      | [] => false
      | b1 :: r1 =>
        if in_range 194 223 b0 then
          in_range 128 191 b1 && utf8_valid fuel' r1
        else match r1 with
        | [] => false
        | b2 :: r2 =>
          if in_range 224 239 b0 then
            (if b0 =? 224 then in_range 160 191 b1
             else if b0 =? 237 then in_range 128 159 b1
             else in_range 128 191 b1)
            && in_range 128 191 b2 && utf8_valid fuel' r2
          else match r2 with
          | [] => false
          | b3 :: r3 =>
            if in_range 240 244 b0 then
              (if b0 =? 240 then in_range 144 191 b1
               else if b0 =? 244 then in_range 128 143 b1
               else in_range 128 191 b1)
              && in_range 128 191 b2 && in_range 128 191 b3
              && utf8_valid fuel' r3
            else false
          end
        end
      end
    end
  end.

Definition text_of_bytes (l : bytes) : string :=
  string_of_list_ascii (map (fun b => ascii_of_N (Z.to_N b)) l).

(** [bytes.decode()]: UTF-8, errors='strict'.  Text is kept in its UTF-8
    encoding, which is how [string] holds it; [None] stands for
    [UnicodeDecodeError]. *)
Definition decode (l : bytes) : option string :=
  if utf8_valid (List.length l) l then Some (text_of_bytes l) else None.

End Py.
Import Py.

(* ================================================================== *)
(** ** Effects, the world and the monad *)

Inductive exn : Type :=
| AssertionError
| AttributeError
| KeyError
| ProcessLookupError
| UnicodeDecodeError
| FileNotFoundError
| ConfigError
| ConnectionRefusedError
| ConnectionError
| TimeoutError
| Exception.

Inductive result (A : Type) : Type :=
| Ok (a : A)
| Raise (e : exn).
Arguments Ok {A} a.
Arguments Raise {A} e.

Inductive level : Type := DEBUG | INFO | ERROR.

(** Coroutines that the module wraps in tasks with [asyncio.ensure_future]. *)
Inductive coro : Type := MonitorAsync | WatchAsync.

(** Callbacks handed to [loop.call_later]. *)
Inductive callback : Type := CbStart.

(** Handlers installed on the IB client. *)
Inductive handler : Type :=
| OnApiError
| OnError
| Foreign (n : nat).

Inductive event : Type :=
| Log (logger : string) (lvl : level) (msg : string)
| Spawn (pid : nat) (cmd : string) (env : list (string * string))
| SigTerm (pid : nat)
| WaitExit (pid : nat)
| EnsureFuture (tid : nat) (c : coro)
| Cancel (tid : nat)
| OpenRead (path : string)
| OpenConnection (host : string) (port : Z)
| SockWrite (data : string)
| SockDrain
| SockClose
| NewIB
| IBConnect (host : string) (port : pyval) (clientId : Z) (timeout : Z)
| IBDisconnect
| IBSetTimeout (seconds : Z)
| IBSleep (seconds : Z)
| ReqHistoricalData (contract endDateTime durationStr barSizeSetting
                     whatToShow : string) (useRTH : bool)
| WaitFor (seconds : Z)
| CallLater (delay : Z) (cb : callback).

Record world : Type := mkWorld {
  trace : list event;            (* effects performed so far, oldest first *)
  next_pid : nat;                (* process table *)
  exited : list nat;             (* processes that have exited *)
  next_tid : nat;                (* event loop: tasks *)
  tasks : list (nat * coro);
  cancelled : list nat;
  timers : list (Z * callback);  (* event loop: pending call_later handles *)
  platform : string;             (* os.sys.platform *)
  environ : list (string * string);
  files : list (string * string);
  listening : list Z;            (* local TCP ports that accept *)
  app_up : bool                  (* the app accepts API connections *)
}.

Definition emit (e : event) (g : world) : world :=
  mkWorld (trace g ++ [e]) (next_pid g) (exited g) (next_tid g) (tasks g)
          (cancelled g) (timers g) (platform g) (environ g) (files g)
          (listening g) (app_up g).

Definition M (St A : Type) : Type := St -> world -> result A * St * world.

Definition ret {St A} (a : A) : M St A := fun s g => (Ok a, s, g).

Definition bind {St A B} (m : M St A) (k : A -> M St B) : M St B :=
  fun s g =>
    match m s g with
    | (Ok a, s', g') => k a s' g'
    | (Raise e, s', g') => (Raise e, s', g')
    end.

Definition raise {St A} (e : exn) : M St A := fun s g => (Raise e, s, g).

Definition gets {St A} (f : St -> A) : M St A := fun s g => (Ok (f s), s, g).

Definition modify {St} (f : St -> St) : M St unit := fun s g => (Ok tt, f s, g).

Definition getw {St A} (f : world -> A) : M St A := fun s g => (Ok (f g), s, g).

Definition modw {St} (f : world -> world) : M St unit :=
  fun s g => (Ok tt, s, f g).

Definition effect {St} (e : event) : M St unit := modw (emit e).

(** [try: m  except: h] with a bare [except]. *)
Definition try_except {St A} (m : M St A) (h : M St A) : M St A :=
  fun s g =>
    match m s g with
    | (Ok a, s', g') => (Ok a, s', g')
    | (Raise _, s', g') => h s' g'
    end.

Definition exn_eqb (a b : exn) : bool :=
  match a, b with
  | AssertionError, AssertionError | AttributeError, AttributeError
  | KeyError, KeyError | ProcessLookupError, ProcessLookupError
  | UnicodeDecodeError, UnicodeDecodeError
  | FileNotFoundError, FileNotFoundError | ConfigError, ConfigError
  | ConnectionRefusedError, ConnectionRefusedError
  | ConnectionError, ConnectionError | TimeoutError, TimeoutError
  | Exception, Exception => true
  | _, _ => false
  end.

(** [with suppress(e): m]. *)
Definition suppress {St} (e : exn) (m : M St unit) : M St unit :=
  fun s g =>
    match m s g with
    | (Raise e', s', g') =>
        if exn_eqb e e' then (Ok tt, s', g') else (Raise e', s', g')
    | r => r
    end.

(** [assert b]. *)
Definition assert {St} (b : bool) : M St unit :=
  if b then ret tt else raise AssertionError.

(** Runs a method of a sub-object held in the state. *)
Definition zoom {St T A} (get : St -> T) (set : T -> St -> St) (m : M T A)
  : M St A :=
  fun s g =>
    match m (get s) g with
    | (r, t', g') => (r, set t' s, g')
    end.

Declare Scope monad_scope.
Delimit Scope monad_scope with monad.
Notation "x <- m ;; k" := (bind m (fun x => k))
  (at level 61, m at next level, right associativity) : monad_scope.
Notation "m ;; k" := (bind m (fun _ => k))
  (at level 61, right associativity) : monad_scope.
Local Open Scope monad_scope.

Definition log {St} (logger : string) (lvl : level) (msg : string)
  : M St unit := effect (Log logger lvl msg).

(* ================================================================== *)
(** ** What asyncio and the operating system do *)

(** [asyncio.create_subprocess_shell(cmd, env=..., stdout=PIPE)]: a new
    process, identified by its pid. *)
Definition create_subprocess_shell {St} (cmd : string)
    (env : list (string * string)) : M St nat :=
  fun s g =>
    let pid := next_pid g in
    (Ok pid, s,
     mkWorld (trace g ++ [Spawn pid cmd env]) (Datatypes.S pid) (exited g)
             (next_tid g) (tasks g) (cancelled g) (timers g) (platform g)
             (environ g) (files g) (listening g) (app_up g)).

(** [asyncio.ensure_future(coroutine)]: a new task on the event loop. *)
Definition ensure_future {St} (c : coro) : M St nat :=
  fun s g =>
    let tid := next_tid g in
    (Ok tid, s,
     mkWorld (trace g ++ [EnsureFuture tid c]) (next_pid g) (exited g)
             (Datatypes.S tid) (tasks g ++ [(tid, c)]) (cancelled g)
             (timers g) (platform g) (environ g) (files g) (listening g)
             (app_up g)).

(** [Process.terminate()]: raises [ProcessLookupError] when the process has
    already exited, sends the signal otherwise. *)
Definition proc_terminate {St} (pid : nat) : M St unit :=
  fun s g =>
    if existsb (Nat.eqb pid) (exited g)
    then (Raise ProcessLookupError, s, g)
    else (Ok tt, s, emit (SigTerm pid) g).

(** [await Process.wait()]: returns once the process has exited. *)
Definition proc_wait {St} (pid : nat) : M St unit :=
  fun s g =>
    (Ok tt, s,
     mkWorld (trace g ++ [WaitExit pid]) (next_pid g) (pid :: exited g)
             (next_tid g) (tasks g) (cancelled g) (timers g) (platform g)
             (environ g) (files g) (listening g) (app_up g)).

(** [Task.cancel()]. *)
Definition task_cancel {St} (tid : nat) : M St unit :=
  fun s g =>
    (Ok tt, s,
     mkWorld (trace g ++ [Cancel tid]) (next_pid g) (exited g) (next_tid g)
             (tasks g) (tid :: cancelled g) (timers g) (platform g)
             (environ g) (files g) (listening g) (app_up g)).

(** [loop.call_later(delay, cb)]; the handle it returns is for the caller to
    keep or to drop. *)
Definition call_later {St} (delay : Z) (cb : callback) : M St unit :=
  fun s g =>
    (Ok tt, s,
     mkWorld (trace g ++ [CallLater delay cb]) (next_pid g) (exited g)
             (next_tid g) (tasks g) (cancelled g)
             (timers g ++ [(delay, cb)]) (platform g) (environ g) (files g)
             (listening g) (app_up g)).

Definition win32 {St} : M St bool :=
  getw (fun g => String.eqb (platform g) "win32").

Fixpoint lookup {V : Type} (k : string) (d : list (string * V)) : option V :=
  match d with
  | [] => None
  | (k', v) :: rest => if String.eqb k k' then Some v else lookup k rest
  end.

(* ================================================================== *)
(** ** What IBC and IBController share *)

(** Both classes keep the process handle and the output-monitor task in the
    slots [_proc] and [_monitor], next to the configured attributes. *)
Record obj (A : Type) : Type := mkObj {
  attrs : A;
  _proc : option nat;
  _monitor : option nat
}.

Definition set_attrs {A} (a : A) (o : obj A) : obj A :=
  mkObj a (_proc o) (_monitor o).
Definition set_proc {A} (p : option nat) (o : obj A) : obj A :=
  mkObj (attrs o) p (_monitor o).
Definition set_monitor {A} (m : option nat) (o : obj A) : obj A :=
  mkObj (attrs o) (_proc o) m.

(** Where the monitor loop stands when the reads it was given are used up. *)
Inductive monitor_status : Type :=
| Returned
| Raised (e : exn)
| Awaiting.

Section Controller.

Variable A : Type.
Variable logger : string.

(** [terminateAsync], which has the same body in both classes. *)
Definition terminateAsync : M (obj A) unit :=
  p <- gets (@_proc A) ;;
  match p with
  | None => ret tt
  | Some pid =>
    log logger INFO "Terminating" ;;
    suppress ProcessLookupError (proc_terminate pid ;; proc_wait pid) ;;
    modify (set_proc None) ;;
    m <- gets (@_monitor A) ;;
    match m with
    | None => raise AttributeError
    | Some t => task_cancel t
    end ;;
    modify (set_monitor None)
  end.

(** [monitorAsync].  Each read is the line [readline()] returned (empty at
    end of stream) together with what the other tasks did to the object
    while the monitor was suspended in the [await].  [lvl] is the level the
    class logs the lines at. *)
Fixpoint monitorAsync (lvl : level)
    (reads : list (bytes * (obj A -> obj A))) (self : obj A) (g : world)
  : monitor_status * obj A * world :=
  match _proc self with
  | None => (Returned, self, g)
  | Some _ =>
    match reads with
    | [] => (Awaiting, self, g)
    | (line, others) :: rest =>
      let self' := others self in
      match line with
      | [] => (Returned, self', g)
      | _ :: _ =>
        match decode (strip line) with
        | None => (Raised UnicodeDecodeError, self', g)
        | Some text =>
            monitorAsync lvl rest self' (emit (Log logger lvl text) g)
        end
      end
    end
  end.

End Controller.

(* ================================================================== *)
(** ** class IBC *)

Module IBC.

Record Attrs : Type := mkAttrs {
  twsVersion : pyval;
  gateway : pyval;
  tradingMode : pyval;
  twsPath : pyval;
  twsSettingsPath : pyval;
  ibcPath : pyval;
  ibcIni : pyval;
  javaPath : pyval;
  userid : pyval;
  password : pyval;
  fixuserid : pyval;
  fixpassword : pyval
}.

Definition IBC : Type := obj Attrs.

Definition IbcLogLevel : level := DEBUG.

Definition logger : string := "ib_insync.IBC".

(** key=(Default, UnixArg, WindowsArg) *)
Definition _Args : list (string * (pyval * string * string)) :=
  [ ("twsVersion", (PyNone, "", ""));
    ("gateway", (PyNone, "--gateway", "/Gateway"));
    ("tradingMode", (PyNone, "--mode=", "/Mode:"));
    ("twsPath", (PyNone, "--tws-path=", "/TwsPath:"));
    ("twsSettingsPath", (PyNone, "--tws-settings-path=", ""));
    ("ibcPath", (PyNone, "--ibc-path=", "/IbcPath:"));
    ("ibcIni", (PyNone, "--ibc-ini=", "/Config:"));
    ("javaPath", (PyNone, "--java-path=", "/JavaPath:"));
    ("userid", (PyNone, "--user=", "/User:"));
    ("password", (PyNone, "--pw=", "/PW:"));
    ("fixuserid", (PyNone, "--fix-user=", "/FIXUser:"));
    ("fixpassword", (PyNone, "--fix-pw=", "/FIXPW:")) ].

Definition defaults : list (string * pyval) :=
  map (fun kv => (fst kv, fst (fst (snd kv)))) _Args.

(** Modelled from the spec: [Object.dict()] of [ib_insync.objects], which is
    not in the source file.  It lists the configured attributes under their
    names in the order of [defaults], that is in the order of the
    declarative table. *)
Definition dict (a : Attrs) : list (string * pyval) :=
  [ ("twsVersion", twsVersion a);
    ("gateway", gateway a);
    ("tradingMode", tradingMode a);
    ("twsPath", twsPath a);
    ("twsSettingsPath", twsSettingsPath a);
    ("ibcPath", ibcPath a);
    ("ibcIni", ibcIni a);
    ("javaPath", javaPath a);
    ("userid", userid a);
    ("password", password a);
    ("fixuserid", fixuserid a);
    ("fixpassword", fixpassword a) ].

Definition set_ibcPath (v : pyval) (a : Attrs) : Attrs :=
  mkAttrs (twsVersion a) (gateway a) (tradingMode a) (twsPath a)
          (twsSettingsPath a) v (ibcIni a) (javaPath a) (userid a)
          (password a) (fixuserid a) (fixpassword a).

(** [IBC(...)]: [a] holds the attributes as [Object.__init__] has set them
    from the arguments and the defaults. *)
Definition __init__ (a : Attrs) (g : world) : IBC :=
  let a' :=
    if negb (truthy (ibcPath a)) then
      set_ibcPath
        (PyStr (if negb (String.eqb (platform g) "win32")
                then "/opt/ibc" else "C:\IBC")) a
    else a in
  mkObj a' None None.

(** One turn of the loop over [self.dict().items()]. *)
Definition add_arg (w32 : bool) (l : list string) (kv : string * pyval)
  : result (list string) :=
  let (k, v) := kv in
  match lookup k _Args with
  | None => Raise KeyError
  | Some (_, unixArg, windowsArg) =>
    let arg := if w32 then windowsArg else unixArg in
    if truthy v then
      if endswith arg "=" || endswith arg ":" then
        Ok (l ++ [(arg ++ str v)%string])
      else if negb (String.eqb arg "") then
        Ok (l ++ [arg])
      else
        Ok (l ++ [str v])
    else Ok l
  end.

Fixpoint add_args (w32 : bool) (l : list string)
    (items : list (string * pyval)) : result (list string) :=
  match items with
  | [] => Ok l
  | kv :: rest =>
    match add_arg w32 l kv with
    | Ok l' => add_args w32 l' rest
    | Raise e => Raise e
    end
  end.

(** The part of [startAsync] under [# create shell command]. *)
Definition shell_command (w32 : bool) (a : Attrs) : result string :=
  let l :=
    [ if w32 then (str (ibcPath a) ++ "\scripts\StartIBC.bat")%string
      else (str (ibcPath a) ++ "/scripts/ibcstart.sh")%string ] in
  match add_args w32 l (dict a) with
  | Ok l' => Ok (join " " l')
  | Raise e => Raise e
  end.

Definition startAsync : M IBC unit :=
  p <- gets (@_proc Attrs) ;;
  if is_set p then ret tt else
  log logger INFO "Starting" ;;
  w32 <- win32 ;;
  a <- gets (@attrs Attrs) ;;
  match shell_command w32 a with
  | Raise e => raise e
  | Ok cmd =>
    env <- getw environ ;;
    pid <- create_subprocess_shell cmd env ;;
    modify (set_proc (Some pid)) ;;
    tid <- ensure_future MonitorAsync ;;
    modify (set_monitor (Some tid))
  end.

Definition terminateAsync : M IBC unit := terminateAsync logger.

Definition monitorAsync := @monitorAsync Attrs logger IbcLogLevel.

(** [start()] and [terminate()] run the coroutine to completion with
    [util.syncAwait]. *)
Definition start : M IBC unit := startAsync.
Definition terminate : M IBC unit := terminateAsync.

(** [__enter__] starts and returns the object; [__exit__] terminates,
    whatever exception it is told of, and returns [None]. *)
Definition __enter__ : M IBC IBC :=
  start ;; gets (fun self => self).

Definition __exit__ (_exc : option exn) : M IBC unit := terminate.

End IBC.

(* ================================================================== *)
(** ** Library functions the module calls *)

(** [os.path.expanduser] and [configparser]: [config_getint txt s o] is what
    [ConfigParser().read_string(txt)] followed by [getint(s, o)] returns,
    [None] when either raises. *)
Class PyLib : Type := {
  expanduser : string -> string;
  config_getint : string -> string -> string -> option Z
}.

(** [open(path).read()]. *)
Definition open_read {St} (path : string) : M St string :=
  fun s g =>
    match lookup path (files g) with
    | Some content => (Ok content, s, emit (OpenRead path) g)
    | None => (Raise FileNotFoundError, s, g)
    end.

(** [await asyncio.open_connection(host, port)]. *)
Definition open_connection {St} (host : string) (port : Z) : M St unit :=
  fun s g =>
    if existsb (Z.eqb port) (listening g)
    then (Ok tt, s, emit (OpenConnection host port) g)
    else (Raise ConnectionRefusedError, s, g).

(** [d[k] = v] on a dict kept in insertion order. *)
Fixpoint setitem {V : Type} (k : string) (v : V) (d : list (string * V))
  : list (string * V) :=
  match d with
  | [] => [(k, v)]
  | (k', v') :: rest =>
    if String.eqb k k' then (k, v) :: rest else (k', v') :: setitem k v rest
  end.

(** [{**a, **b}]. *)
Definition merge {V : Type} (a b : list (string * V)) : list (string * V) :=
  fold_left (fun d kv => setitem (fst kv) (snd kv) d) b a.

(* ================================================================== *)
(** ** class IBController *)

Module IBController.

(** The attributes, by slot name. *)
Definition Attrs : Type := list (string * string).

Definition IBController : Type := obj Attrs.

Definition logger : string := "ib_insync.IBController".

Definition defaults : Attrs :=
  [ ("APP", "TWS");
    ("TWS_MAJOR_VRSN", "969");
    ("TRADING_MODE", "live");
    ("IBC_INI", "~/IBController/IBController.ini");
    ("IBC_PATH", "~/IBController");
    ("TWS_PATH", "~/Jts");
    ("LOG_PATH", "~/IBController/Logs");
    ("TWSUSERID", "");
    ("TWSPASSWORD", "");
    ("JAVA_PATH", "");
    ("TWS_CONFIG_PATH", "") ].

(** Modelled from the spec: [Object.__init__], [Object.dict] and
    [Object.update] of [ib_insync.objects], which are not in the source
    file.  Construction sets every attribute of [defaults], from the
    keyword arguments where given; [dict()] reads them back in that order;
    [update] assigns the items of the dict it is given. *)
Definition __init__ (kwargs : Attrs) : IBController :=
  mkObj (merge defaults kwargs) None None.

Definition getattr {V : Type} (k : string) (a : list (string * V))
  : result V :=
  match lookup k a with
  | Some v => Ok v
  | None => Raise AttributeError
  end.

Fixpoint dict_keys (keys : list string) (a : Attrs) : result Attrs :=
  match keys with
  | [] => Ok []
  | k :: ks =>
    match getattr k a, dict_keys ks a with
    | Ok v, Ok d => Ok ((k, v) :: d)
    | Raise e, _ => Raise e
    | _, Raise e => Raise e
    end
  end.

Definition dict (a : Attrs) : result Attrs :=
  dict_keys (map fst defaults) a.

Definition update (d : Attrs) (a : Attrs) : Attrs := merge a d.

Definition getitem {V : Type} (k : string) (d : list (string * V))
  : result V :=
  match lookup k d with
  | Some v => Ok v
  | None => Raise KeyError
  end.

Definition lift {St A} (r : result A) : M St A :=
  match r with
  | Ok a => ret a
  | Raise e => raise e
  end.

Section WithLib.

Context {lib : PyLib}.

(** The part of [startAsync] under [# expand paths], before [self.update]. *)
Definition expand_paths (d : Attrs) : result Attrs :=
  let d1 :=
    fold_left
      (fun d kv =>
         if endswith (fst kv) "_PATH" || endswith (fst kv) "_INI"
         then setitem (fst kv) (expanduser (snd kv)) d
         else d)
      d d in
  match getitem "TWS_CONFIG_PATH" d1 with
  | Raise e => Raise e
  | Ok c =>
    if negb (negb (String.eqb c "")) then
      match getitem "TWS_PATH" d1 with
      | Raise e => Raise e
      | Ok t => Ok (setitem "TWS_CONFIG_PATH" t d1)
      end
    else Ok d1
  end.

Definition startAsync : M IBController unit :=
  p <- gets (@_proc Attrs) ;;
  if is_set p then ret tt else
  log logger INFO "Starting" ;;
  a <- gets (@attrs Attrs) ;;
  d0 <- lift (dict a) ;;
  d <- lift (expand_paths d0) ;;
  modify (set_attrs (update d a)) ;;
  w32 <- win32 ;;
  let ext := if w32 then "bat" else "sh" in
  ibc_path <- lift (getitem "IBC_PATH" d) ;;
  let cmd :=
    (ibc_path ++ "/Scripts/DisplayBannerAndLaunch." ++ ext)%string in
  environ <- getw environ ;;
  let env := merge environ d in
  pid <- create_subprocess_shell cmd env ;;
  modify (set_proc (Some pid)) ;;
  tid <- ensure_future MonitorAsync ;;
  modify (set_monitor (Some tid)).

(** The tasks that run while the coroutine is suspended in an [await]:
    they see the controller and act on the world. *)
Definition onlookers : Type := IBController -> world -> world.

Definition suspended (others : onlookers) : M IBController unit :=
  fun self g => (Ok tt, self, others self g).

(** [stopAsync], with what the other tasks do at each of its three
    [await]s: the connection, the drain and the wait for the exit. *)
Definition stopAsync_during (others : onlookers) : M IBController unit :=
  p <- gets (@_proc Attrs) ;;
  match p with
  | None => ret tt
  | Some _ =>
    log logger INFO "Stopping" ;;
    a <- gets (@attrs Attrs) ;;
    ini <- lift (getattr "IBC_INI" a) ;;
    content <- open_read ini ;;
    let txt := ("[section]" ++ content)%string in
    contrPort <-
      match config_getint txt "section" "IbControllerPort" with
      | Some n => ret n
      | None => raise ConfigError
      end ;;
    suspended others ;;
    open_connection "127.0.0.1" contrPort ;;
    effect (SockWrite "STOP") ;;
    suspended others ;;
    effect SockDrain ;;
    effect SockClose ;;
    p' <- gets (@_proc Attrs) ;;
    match p' with
    | None => raise AttributeError
    | Some pid => suspended others ;; proc_wait pid
    end ;;
    modify (set_proc None) ;;
    m <- gets (@_monitor Attrs) ;;
    match m with
    | None => raise AttributeError
    | Some t => task_cancel t
    end ;;
    modify (set_monitor None)
  end.

(** [stopAsync] when no other task does anything meanwhile. *)
Definition stopAsync : M IBController unit :=
  stopAsync_during (fun _ g => g).

Definition terminateAsync : M IBController unit := terminateAsync logger.

Definition monitorAsync := @monitorAsync Attrs logger INFO.

Definition start : M IBController unit := startAsync.
Definition stop : M IBController unit := stopAsync.
Definition terminate : M IBController unit := terminateAsync.

Definition __enter__ : M IBController IBController :=
  start ;; gets (fun self => self).

Definition __exit__ (_exc : option exn) : M IBController unit := terminate.

End WithLib.

End IBController.

(* ================================================================== *)
(** ** class Watchdog *)

Module Watchdog.

(** [controller]: IBC or IBController instance. *)
Inductive controller_obj : Type :=
| CtlIBC (c : IBC.IBC)
| CtlIBController (c : IBController.IBController).

(** Modelled from the spec: the [IB] client of [ib_insync.ib], which is not
    in the source file (the ConnectionClient of the spec).  It holds the
    api-error callback of its [client], its event callbacks by name, the
    connected flag and the armed idle timeout. *)
Record IB : Type := mkIB {
  apiError : option handler;
  callbacks : list (string * handler);
  connected : bool;
  idle_timeout : option Z
}.


Record Watchdog : Type := mkWatchdog {
  controller : option controller_obj;
  host : string;
  port : pyval;
  clientId : Z;
  connectTimeout : Z;
  ib : option IB;
  appStartupTime : Z;
  appTimeout : Z;
  retryDelay : Z;
  _watcher : option nat
}.

Definition logger : string := "ib_insync.Watchdog".

Definition set_controller (c : option controller_obj) (w : Watchdog)
  : Watchdog :=
  mkWatchdog c (host w) (port w) (clientId w) (connectTimeout w) (ib w)
             (appStartupTime w) (appTimeout w) (retryDelay w) (_watcher w).

Definition set_ib (i : option IB) (w : Watchdog) : Watchdog :=
  mkWatchdog (controller w) (host w) (port w) (clientId w)
             (connectTimeout w) i (appStartupTime w) (appTimeout w)
             (retryDelay w) (_watcher w).

Definition set_watcher (t : option nat) (w : Watchdog) : Watchdog :=
  mkWatchdog (controller w) (host w) (port w) (clientId w)
             (connectTimeout w) (ib w) (appStartupTime w) (appTimeout w)
             (retryDelay w) t.

(** A method call on [self.ib]. *)
Definition on_ib {A} (m : M IB A) : M Watchdog A :=
  i <- gets ib ;;
  match i with
  | None => raise AttributeError
  | Some c =>
    zoom (fun _ => c) (fun c' w => set_ib (Some c') w) m
  end.

(** [IB()] *)
Definition new_IB : M Watchdog IB :=
  effect NewIB ;; ret (mkIB None [] false None).

(** [ib.client.apiError = h] *)
Definition ib_set_apiError (h : handler) : M IB unit :=
  modify (fun c => mkIB (Some h) (callbacks c) (connected c) (idle_timeout c)).

(** [ib.setCallback(name, h)] *)
Definition ib_setCallback (name : string) (h : handler) : M IB unit :=
  modify (fun c =>
            mkIB (apiError c) (setitem name h (callbacks c)) (connected c)
                 (idle_timeout c)).

(** [ib.disconnect()] *)
Definition ib_disconnect : M IB unit :=
  effect IBDisconnect ;;
  modify (fun c => mkIB (apiError c) (callbacks c) false (idle_timeout c)).

(** [ib.setTimeout(t)] *)
Definition ib_setTimeout (t : Z) : M IB unit :=
  effect (IBSetTimeout t) ;;
  modify (fun c => mkIB (apiError c) (callbacks c) (connected c) (Some t)).



Section WithLib.

Context {lib : PyLib}.

(** [self.controller.start()] and [self.controller.terminate()]. *)
Definition controller_call (ibc : M IBC.IBC unit)
    (ibcontroller : M IBController.IBController unit) : M Watchdog unit :=
  fun w g =>
    match controller w with
    | None => (Raise AttributeError, w, g)
    | Some (CtlIBC c) =>
      match ibc c g with
      | (r, c', g') => (r, set_controller (Some (CtlIBC c')) w, g')
      end
    | Some (CtlIBController c) =>
      match ibcontroller c g with
      | (r, c', g') => (r, set_controller (Some (CtlIBController c')) w, g')
      end
    end.

(** [Watchdog.__init__], run on the object whose attributes
    [Object.__init__] has set from the arguments and the defaults. *)
Definition __init__ : M Watchdog unit :=
  c <- gets controller ;;
  assert (is_set c) ;;
  t <- gets appTimeout ;;
  assert ((0 <? t) && (t <? 60)) ;;
  r <- gets retryDelay ;;
  assert (r >? 0) ;;
  i <- gets ib ;;
  (if is_set i then ret tt
   else (c <- new_IB ;; modify (set_ib (Some c)))) ;;
  on_ib (ib_set_apiError OnApiError) ;;
  on_ib (ib_setCallback "error" OnError) ;;
  tid <- ensure_future WatchAsync ;;
  modify (set_watcher (Some tid)).

(** [Watchdog(...)]: the object, unless [__init__] raises. *)
Definition new (args : Watchdog) (g : world) : result Watchdog * world :=
  match __init__ args g with
  | (Ok _, w, g') => (Ok w, g')
  | (Raise e, _, g') => (Raise e, g')
  end.

Definition stop : M Watchdog unit :=
  log logger INFO "Stopping" ;;
  on_ib ib_disconnect ;;
  controller_call IBC.terminate IBController.terminate.

Definition scheduleRestart : M Watchdog unit :=
  r <- gets retryDelay ;;
  log logger INFO ("Schedule restart in " ++ str (PyInt r) ++ "s")%string ;;
  call_later r CbStart.

Definition onApiError (msg : string) : M Watchdog unit :=
  stop ;;
  scheduleRestart.

Definition onError (reqId errorCode : Z) (errorString : string)
    (contract : option string) : M Watchdog unit :=
  if errorCode =? 1100 then
    log logger INFO ("Error 1100: " ++ errorString)%string ;;
    stop ;;
    scheduleRestart
  else ret tt.

(** The client calls its api-error callback: the handler of the watchdog
    when [__init__] has installed it; the handler of another owner is none
    of this module. *)
Definition call_apiError (msg : string) : M Watchdog unit :=
  i <- gets ib ;;
  match i with
  | Some c =>
    match apiError c with
    | Some OnApiError => onApiError msg
    | _ => ret tt
    end
  | None => raise AttributeError
  end.

(** Modelled from the spec: [ib.connect(host, port, clientId, timeout)].
    A connection that fails is reported to the api-error callback before
    the exception reaches the caller. *)
Definition ib_connect (h : string) (p : pyval) (cid t : Z)
  : M Watchdog unit :=
  on_ib (effect (IBConnect h p cid t)) ;;
  up <- getw app_up ;;
  if up then
    on_ib (modify (fun c =>
                     mkIB (apiError c) (callbacks c) true (idle_timeout c)))
  else
    call_apiError "API connection failed" ;;
    raise ConnectionError.

Definition start : M Watchdog unit :=
  log logger INFO "Starting" ;;
  controller_call IBC.start IBController.start ;;
  t <- gets appStartupTime ;;
  effect (IBSleep t) ;;
  try_except
    (h <- gets host ;;
     p <- gets port ;;
     cid <- gets clientId ;;
     ct <- gets connectTimeout ;;
     ib_connect h p cid ct ;;
     at_ <- gets appTimeout ;;
     on_ib (ib_setTimeout at_))
    (ret tt).


(** The event loop runs the callback of its first pending timer. *)
Definition fire_timer : M Watchdog unit :=
  fun w g =>
    match timers g with
    | [] => (Ok tt, w, g)
    | (_, CbStart) :: rest =>
      start w
        (mkWorld (trace g) (next_pid g) (exited g) (next_tid g) (tasks g)
                 (cancelled g) rest (platform g) (environ g) (files g)
                 (listening g) (app_up g))
    end.


End WithLib.

End Watchdog.

(* ================================================================== *)
(** ** The script of the module *)

Module Script.
Import Watchdog.

(** The interpreter that runs the script: the event loop of
    [asyncio.get_event_loop()], which runs or not, and the world. *)
Record interp : Type := mkInterp {
  loop_running : bool;
  now : world
}.

(** A call made by the script on the watchdog.  A blocking call of the
    client runs the loop until its result is there and leaves it as it
    found it. *)
Definition call {A} (m : M Watchdog A) (w : Watchdog) (s : interp)
  : result A * Watchdog * interp :=
  match m w (now s) with
  | (r, w', g') => (r, w', mkInterp (loop_running s) g')
  end.

(** [Watchdog(...)] evaluated by the script.  [asyncio.ensure_future]
    hands the coroutine to the loop of [get_event_loop()], running or
    not. *)
Definition construct (args : Watchdog) (s : interp)
  : result Watchdog * interp :=
  match new args (now s) with
  | (r, g') => (r, mkInterp (loop_running s) g')
  end.

(** [IB.run()]: the loop runs from here on. *)
Definition IB_run (s : interp) : interp := mkInterp true (now s).

(** [IBC(969, gateway=True, tradingMode='paper')] *)
Definition ibc_args : IBC.Attrs :=
  IBC.mkAttrs (PyInt 969) (PyBool true) (PyStr "paper") PyNone PyNone
              PyNone PyNone PyNone PyNone PyNone PyNone PyNone.

(** The attributes that [Object.__init__] sets for [Watchdog(ibc,
    port=4002)]. *)
Definition app_args (ibc : IBC.IBC) : Watchdog :=
  mkWatchdog (Some (CtlIBC ibc)) "127.0.0.1" (PyInt 4002) 1 2 None
             30 20 1 None.

Section WithLib.

Context {lib : PyLib}.

(** The [__main__] block: the controller, the watchdog, [app.start()] and
    then [IB.run()].  The logging set-up and the patch of asyncio have no
    part in the state. *)
Definition main (s : interp) : result unit * interp :=
  let ibc := IBC.__init__ ibc_args (now s) in
  match construct (app_args ibc) s with
  | (Raise e, s1) => (Raise e, s1)
  | (Ok app, s1) =>
    match call start app s1 with
    | (Raise e, _, s2) => (Raise e, s2)
    | (Ok _, _, s2) => (Ok tt, IB_run s2)
    end
  end.

End WithLib.

End Script.

(* ================================================================== *)
(** * Vocabulary of the properties *)

(** The state in which every controller method leaves the two slots: both
    set or both clear. *)
Definition slots_ok {A} (o : obj A) : Prop :=
  is_set (_proc o) = is_set (_monitor o).

(** The world after a terminate that found the process [pid] and the
    monitor [tid]. *)
Definition terminated (logger : string) (pid tid : nat) (g : world)
  : world :=
  let gone := existsb (Nat.eqb pid) (exited g) in
  mkWorld
    (trace g ++ Log logger INFO "Terminating"
            :: (if gone then [] else [SigTerm pid; WaitExit pid])
            ++ [Cancel tid])
    (next_pid g)
    (if gone then exited g else pid :: exited g)
    (next_tid g) (tasks g) (tid :: cancelled g) (timers g) (platform g)
    (environ g) (files g) (listening g) (app_up g).

(** The contract of [terminateAsync], for a class whose logger is
    [logger]. *)
Definition terminate_contract {A} (terminate : M (obj A) unit)
    (logger : string) : Prop :=
  forall (o : obj A) (g : world),
    (_proc o = None -> terminate o g = (Ok tt, o, g))
    /\
    (forall pid tid, _proc o = Some pid -> _monitor o = Some tid ->
       let gone := existsb (Nat.eqb pid) (exited g) in
       exists o' g',
         terminate o g = (Ok tt, o', g')
         /\ _proc o' = None /\ _monitor o' = None /\ attrs o' = attrs o
         /\ trace g' =
              trace g ++ Log logger INFO "Terminating"
                      :: (if gone then [] else [SigTerm pid; WaitExit pid])
                      ++ [Cancel tid]
         /\ (gone = true ->
               proc_terminate pid o g = (Raise ProcessLookupError, o, g))
         /\ In pid (exited g') /\ In tid (cancelled g')
         /\ terminate o' g' = (Ok tt, o', g')).

(** The processes a trace has started. *)
Definition spawned (tr : list event) : list nat :=
  flat_map (fun e => match e with Spawn pid _ _ => [pid] | _ => [] end) tr.

(** The processes started so far that have not exited. *)
Definition live (g : world) : list nat :=
  filter (fun pid => negb (existsb (Nat.eqb pid) (exited g)))
         (spawned (trace g)).

(** What a caller and the environment can do with a controller. *)
Inductive op : Type :=
| OpStart
| OpStop
| OpTerminate
| OpExit (pid : nat).   (* the process exits by itself *)

Definition process_exits {St} (pid : nat) : M St unit :=
  modw (fun g =>
          mkWorld (trace g) (next_pid g) (pid :: exited g) (next_tid g)
                  (tasks g) (cancelled g) (timers g) (platform g)
                  (environ g) (files g) (listening g) (app_up g)).

(** IBC has no [stop]. *)
Definition ibc_step (o : op) : M IBC.IBC unit :=
  match o with
  | OpStart => IBC.startAsync
  | OpStop => raise AttributeError
  | OpTerminate => IBC.terminateAsync
  | OpExit pid => process_exits pid
  end.

Definition ibcontroller_step {lib : PyLib} (o : op)
  : M IBController.IBController unit :=
  match o with
  | OpStart => IBController.startAsync
  | OpStop => IBController.stopAsync
  | OpTerminate => IBController.terminateAsync
  | OpExit pid => process_exits pid
  end.

(** The calls are made one after the other; an exception goes to the
    caller, who carries on. *)
Fixpoint run_ops {A} (step : op -> M (obj A) unit) (ops : list op)
    (o : obj A) (g : world) : obj A * world :=
  match ops with
  | [] => (o, g)
  | x :: rest =>
    match step x o g with
    | (_, o', g') => run_ops step rest o' g'
    end
  end.

(** The handle slot accounts for every live process the controller has
    started. *)
Definition handle_inv {A} (o : obj A) (g : world) : Prop :=
  slots_ok o
  /\ (forall pid, In pid (spawned (trace g)) -> (pid < next_pid g)%nat)
  /\ NoDup (spawned (trace g))
  /\ (forall pid, In pid (live g) -> _proc o = Some pid).

(** A read during which no other task touches the object. *)
Definition quiet {A} (line : bytes) : bytes * (obj A -> obj A) :=
  (line, fun o => o).

(** The object after the other tasks have run during the given reads. *)
Definition interfered {A} (reads : list (bytes * (obj A -> obj A)))
    (o : obj A) : obj A :=
  fold_left (fun o r => snd r o) reads o.

(** The lines of the reads, as the monitor logs them. *)
Fixpoint forwarded (lg : string) (lvl : level) (lines : list bytes)
  : list event :=
  match lines with
  | [] => []
  | line :: rest =>
    match decode (strip line) with
    | Some text => Log lg lvl text :: forwarded lg lvl rest
    | None => []
    end
  end.

(** ** The graceful stop among other tasks *)

(** The world once the wait for the exit of [pid] has returned and the
    task [tid] has been cancelled. *)
Definition waited_cancelled (pid tid : nat) (g : world) : world :=
  mkWorld (trace g ++ [WaitExit pid; Cancel tid]) (next_pid g)
          (pid :: exited g) (next_tid g) (tasks g) (tid :: cancelled g)
          (timers g) (platform g) (environ g) (files g) (listening g)
          (app_up g).

(** A task that notes, each time it runs, whether the controller holds
    its process. *)
Definition handle_watcher {A} (self : obj A) (g : world) : world :=
  emit (Log "observer" DEBUG
            (if is_set (_proc self) then "process held" else "no process"))
       g.

(** ** The command line of IBC *)

Module IBCCommand.

(** The flag of a table entry on the platform. *)
Definition platform_flag (w32 : bool) (entry : pyval * string * string)
  : string :=
  match entry with
  | (_, unixArg, windowsArg) => if w32 then windowsArg else unixArg
  end.

(** The tokens an argument contributes, case by case: none for a
    value that is empty or [None]; [flag] and the value in one token when
    the flag ends in [=] or [:]; a bare token otherwise (the flag, or the
    value for an entry without flag). *)
Definition arg_tokens (flag : string) (v : pyval) : list string :=
  if truthy v then
    if endswith flag "=" || endswith flag ":" then [(flag ++ str v)%string]
    else if String.eqb flag "" then [str v]
    else [flag]
  else [].

(** The path of the start script. *)
Definition script (w32 : bool) (a : IBC.Attrs) : string :=
  if w32 then (str (IBC.ibcPath a) ++ "\scripts\StartIBC.bat")%string
  else (str (IBC.ibcPath a) ++ "/scripts/ibcstart.sh")%string.

(** The tokens of the whole table, entry by entry, each with the value
    configured under its key. *)
Definition table_tokens (w32 : bool) (a : IBC.Attrs) : list string :=
  flat_map
    (fun e =>
       match lookup (fst e) (IBC.dict a) with
       | Some v => arg_tokens (platform_flag w32 (snd e)) v
       | None => []
       end)
    IBC._Args.

Definition command_line (w32 : bool) (a : IBC.Attrs) : string :=
  join " " (script w32 a :: table_tokens w32 a).

Definition item_tokens (w32 : bool) (kv : string * pyval) : list string :=
  match lookup (fst kv) IBC._Args with
  | Some entry => arg_tokens (platform_flag w32 entry) (snd kv)
  | None => []
  end.

End IBCCommand.

(** ** The watchdog *)

Module WatchdogSpec.
Import Watchdog.

Definition ctrl_ok (c : controller_obj) : Prop :=
  match c with
  | CtlIBC o => slots_ok o
  | CtlIBController o => slots_ok o
  end.

(** What [__init__] establishes, and [stop()] and the watch loop keep: a
    controller whose slots agree, an IB client, and the bounds on the two
    delays. *)
Definition constructed (w : Watchdog) : Prop :=
  (exists c, controller w = Some c /\ ctrl_ok c)
  /\ (exists i, ib w = Some i)
  /\ 0 < appTimeout w < 60
  /\ 0 < retryDelay w.

Definition cleared {A} (o : obj A) : obj A := mkObj (attrs o) None None.

Definition terminated_ctrl (c : controller_obj) : controller_obj :=
  match c with
  | CtlIBC o => CtlIBC (cleared o)
  | CtlIBController o => CtlIBController (cleared o)
  end.

Definition terminate_world {A} (logger : string) (o : obj A) (g : world)
  : world :=
  match _proc o, _monitor o with
  | Some pid, Some tid => terminated logger pid tid g
  | _, _ => g
  end.

Definition disconnected (i : IB) : IB :=
  mkIB (apiError i) (callbacks i) false (idle_timeout i).


(** The watchdog and the world after [stop()]. *)
Definition stopped (w : Watchdog) : Watchdog :=
  set_controller (option_map terminated_ctrl (controller w))
                 (set_ib (option_map disconnected (ib w)) w).

Definition stop_world (w : Watchdog) (g : world) : world :=
  let g1 := emit IBDisconnect (emit (Log logger INFO "Stopping") g) in
  match controller w with
  | Some (CtlIBC o) => terminate_world IBC.logger o g1
  | Some (CtlIBController o) => terminate_world IBController.logger o g1
  | None => g1
  end.

(** The world after [scheduleRestart()]. *)
Definition restart_scheduled (w : Watchdog) (g : world) : world :=
  mkWorld
    (trace g ++
       [ Log logger INFO
             ("Schedule restart in " ++ str (PyInt (retryDelay w)) ++ "s");
         CallLater (retryDelay w) CbStart ])
    (next_pid g) (exited g) (next_tid g) (tasks g) (cancelled g)
    (timers g ++ [(retryDelay w, CbStart)])
    (platform g) (environ g) (files g) (listening g) (app_up g).

(** The effects of [terminateAsync] and of [stop()], in order. *)
Definition terminate_events {A} (lg : string) (o : obj A) (g : world)
  : list event :=
  match _proc o, _monitor o with
  | Some pid, Some tid =>
      Log lg INFO "Terminating"
      :: (if existsb (Nat.eqb pid) (exited g) then []
          else [SigTerm pid; WaitExit pid])
      ++ [Cancel tid]
  | _, _ => []
  end.

Definition stop_events (w : Watchdog) (g : world) : list event :=
  [Log logger INFO "Stopping"; IBDisconnect]
  ++ match controller w with
     | Some (CtlIBC o) => terminate_events IBC.logger o g
     | Some (CtlIBController o) => terminate_events IBController.logger o g
     | None => []
     end.






Definition emits (evs : list event) (g : world) : world :=
  fold_left (fun g e => emit e g) evs g.

(** [n] calls of [m] in a row. *)
Fixpoint times {St} (n : nat) (m : M St unit) : M St unit :=
  match n with
  | O => ret tt
  | Datatypes.S k => m ;; times k m
  end.

End WatchdogSpec.

(** ** A configuration to run the methods on *)

Module Example.
Import Watchdog.

(** A home directory for [expanduser], and a [configparser] that knows the
    one file of the example. *)
Definition pylib : PyLib :=
  {| expanduser :=
       fun path =>
         match path with
         | String "~" rest => ("/home/ib" ++ rest)%string
         | _ => path
         end;
     config_getint :=
       fun txt section option =>
         if String.eqb txt "[section]# IBController settings
IbControllerPort=7462
"
            && String.eqb section "section"
            && String.eqb option "IbControllerPort"
         then Some 7462
         else None |}.

(** Nothing has happened yet. *)
Definition world0 : world :=
  mkWorld [] 0 [] 0 [] [] [] "linux" [("HOME", "/home/ib")]
          [("/home/ib/IBController/IBController.ini",
            "# IBController settings
IbControllerPort=7462
")]
          [7462] true.

(** [IBC(969, gateway=True, tradingMode='paper')] *)
Definition ibc0 : IBC.IBC :=
  IBC.__init__
    (IBC.mkAttrs (PyInt 969) (PyBool true) (PyStr "paper") PyNone PyNone
                 PyNone PyNone PyNone PyNone PyNone PyNone PyNone)
    world0.

(** The same controller once started, and the world then. *)
Definition ibc1 : IBC.IBC :=
  Eval vm_compute in snd (fst (IBC.startAsync ibc0 world0)).

Definition world1 : world :=
  Eval vm_compute in snd (IBC.startAsync ibc0 world0).

(** [IBController()] once started, and the world then. *)
Definition ibcontroller1 : IBController.IBController :=
  Eval vm_compute in
    snd (fst (IBController.startAsync (lib := pylib)
                (IBController.__init__ []) world0)).

Definition world2 : world :=
  Eval vm_compute in
    snd (IBController.startAsync (lib := pylib)
           (IBController.__init__ []) world0).

(** The arguments of [Watchdog(ibc, port=4002)]. *)
Definition args0 : Watchdog :=
  mkWatchdog (Some (CtlIBC ibc0)) "127.0.0.1" (PyInt 4002) 1 2 None
             30 20 1 None.

(** A watchdog over the started IBC, connected. *)
Definition watchdog1 : Watchdog :=
  mkWatchdog (Some (CtlIBC ibc1)) "127.0.0.1" (PyInt 4002) 1 2
             (Some (mkIB (Some OnApiError) [("error", OnError)] true
                         (Some 20)))
             30 20 1 (Some 1%nat).

End Example.

(* ================================================================== *)
(** * Vocabulary of the further properties *)

Module More.
Import Watchdog WatchdogSpec.

(** The world after [startAsync] has logged, spawned [cmd] under [env] and
    made the monitor task. *)
Definition started (lg cmd : string) (env : list (string * string))
    (g : world) : world :=
  mkWorld
    (trace g ++ [ Log lg INFO "Starting";
                  Spawn (next_pid g) cmd env;
                  EnsureFuture (next_tid g) MonitorAsync ])
    (Datatypes.S (next_pid g)) (exited g) (Datatypes.S (next_tid g))
    (tasks g ++ [(next_tid g, MonitorAsync)]) (cancelled g) (timers g)
    (platform g) (environ g) (files g) (listening g) (app_up g).

(** The object with handle [pid] and monitor [tid]. *)
Definition running {A} (pid tid : nat) (o : obj A) : obj A :=
  mkObj (attrs o) (Some pid) (Some tid).

(** The client once [start()] has connected and armed the idle timeout. *)
Definition connected_armed (t : Z) (i : IB) : IB :=
  mkIB (apiError i) (callbacks i) true (Some t).

(** The client reports its connection failures to the watchdog, as it
    does once [__init__] has run. *)
Definition watching (w : Watchdog) : Prop :=
  option_map apiError (ib w) = Some (Some OnApiError).

(** The client once [connect] has succeeded. *)
Definition connected_to (i : IB) : IB :=
  mkIB (apiError i) (callbacks i) true (idle_timeout i).

(** What another task does when it clears the handle. *)
Definition clears_handle {A} (o : obj A) : obj A := set_proc None o.

(** The dict of an IBController, by slot. *)
Definition ibcontroller_dict
    (app vrsn mode ini ibc_path tws_path log_path user pw java cfg : string)
  : IBController.Attrs :=
  [ ("APP", app);
    ("TWS_MAJOR_VRSN", vrsn);
    ("TRADING_MODE", mode);
    ("IBC_INI", ini);
    ("IBC_PATH", ibc_path);
    ("TWS_PATH", tws_path);
    ("LOG_PATH", log_path);
    ("TWSUSERID", user);
    ("TWSPASSWORD", pw);
    ("JAVA_PATH", java);
    ("TWS_CONFIG_PATH", cfg) ].

(** The world with other timers pending. *)
Definition with_timers (t : list (Z * callback)) (g : world) : world :=
  mkWorld (trace g) (next_pid g) (exited g) (next_tid g) (tasks g)
          (cancelled g) t (platform g) (environ g) (files g) (listening g)
          (app_up g).

(** A line that [readline()] can return before the end of the stream and
    that is UTF-8 once stripped. *)
Definition text_line (line : bytes) : Prop :=
  line <> [] /\ decode (strip line) <> None.

(** What the monitor of a class does with lines of text, [lg] and [lvl]
    being the logger and the level of the class. *)
Definition monitor_contract {A}
    (monitor : list (bytes * (obj A -> obj A)) -> obj A -> world
               -> monitor_status * obj A * world)
    (lg : string) (lvl : level) : Prop :=
  forall (lines : list bytes) (self : obj A) (g : world),
    _proc self <> None ->
    (forall line, In line lines -> text_line line) ->
    let logged :=
      map (fun line => Log lg lvl (text_of_bytes (strip line))) lines in
    (* all lines read, the next read pending *)
    monitor (map quiet lines) self g = (Awaiting, self, emits logged g)
    (* end of stream: the loop returns, later reads are never made *)
    /\ (forall rest,
          monitor (map quiet lines ++ quiet [] :: rest) self g
          = (Returned, self, emits logged g))
    (* the handle is cleared while a line is being read: the line is still
       forwarded, then the loop returns *)
    /\ (forall line rest,
          text_line line ->
          monitor (map quiet lines ++ (line, clears_handle) :: rest) self g
          = (Returned, clears_handle self,
             emits (logged ++ [Log lg lvl (text_of_bytes (strip line))]) g)).

(** What the monitor of a class never does. *)
Definition monitor_frame {A}
    (monitor : list (bytes * (obj A -> obj A)) -> obj A -> world
               -> monitor_status * obj A * world)
    (lg : string) (lvl : level) : Prop :=
  forall (reads : list (bytes * (obj A -> obj A))) (self : obj A)
         (g : world),
    match monitor reads self g with
    | (_, self', g') =>
        (exists n, (n <= List.length reads)%nat
                   /\ self' = interfered (firstn n reads) self)
        /\ (exists msgs, g' = emits (map (Log lg lvl) msgs) g)
        /\ ((forall r, In r reads -> forall o, snd r o = o) -> self' = self)
    end.

(** An IBC configuration with other credentials. *)
Definition with_credentials (user pw : pyval) (a : IBC.Attrs) : IBC.Attrs :=
  IBC.mkAttrs (IBC.twsVersion a) (IBC.gateway a) (IBC.tradingMode a)
              (IBC.twsPath a) (IBC.twsSettingsPath a) (IBC.ibcPath a)
              (IBC.ibcIni a) (IBC.javaPath a) user pw (IBC.fixuserid a)
              (IBC.fixpassword a).


(** The started IBController after a graceful stop, and the world then. *)
Definition ibcontroller_stopped : IBController.IBController :=
  Eval vm_compute in
    snd (fst (IBController.stopAsync (lib := Example.pylib)
                Example.ibcontroller1 Example.world2)).

Definition world3 : world :=
  Eval vm_compute in
    snd (IBController.stopAsync (lib := Example.pylib)
           Example.ibcontroller1 Example.world2).


End More.

(* ================================================================== *)
(** * Properties *)

(** ** The monad *)

Lemma bind_ok {St A B} (m : M St A) (k : A -> M St B) s g a s' g' :
  m s g = (Ok a, s', g') -> bind m k s g = k a s' g'.
Proof. intros H. unfold bind. rewrite H. reflexivity. Qed.

(** ** terminateAsync *)

Section TerminateFacts.

Variable A : Type.
Variable logger : string.

Lemma terminateAsync_no_handle (o : obj A) g :
  _proc o = None -> terminateAsync logger o g = (Ok tt, o, g).
Proof.
  intros H. unfold terminateAsync, bind, gets. rewrite H. reflexivity.
Qed.

Lemma terminateAsync_handle (o : obj A) g pid tid :
  _proc o = Some pid -> _monitor o = Some tid ->
  terminateAsync logger o g
  = (Ok tt, mkObj (attrs o) None None, terminated logger pid tid g).
Proof.
  intros Hp Hm.
  unfold terminateAsync, terminated, bind, gets, suppress, log, effect,
    modw, modify, proc_terminate, proc_wait, task_cancel.
  rewrite Hp. cbn [_proc _monitor set_proc set_monitor attrs emit exited trace].
  destruct (existsb (Nat.eqb pid) (exited g)) eqn:E;
    cbn [exn_eqb _proc _monitor set_proc set_monitor attrs];
    rewrite Hm; cbn; rewrite <- ?app_assoc; reflexivity.
Qed.

End TerminateFacts.

Lemma terminateAsync_contract A logger :
  terminate_contract (@terminateAsync A logger) logger.
Proof.
  intros o g. split.
  - apply terminateAsync_no_handle.
  - intros pid tid Hp Hm gone.
    exists (mkObj (attrs o) None None), (terminated logger pid tid g).
    split; [apply terminateAsync_handle; assumption|].
    repeat split.
    + intros Hg. unfold proc_terminate. fold gone. rewrite Hg. reflexivity.
    + unfold terminated. fold gone. cbn [exited].
      destruct gone eqn:E; [|left; reflexivity].
      apply existsb_exists in E. destruct E as (x & Hx & Ex).
      apply Nat.eqb_eq in Ex. subst x. exact Hx.
    + left. reflexivity.
Qed.

(** C6. [terminateAsync] of IBC and of IBController: with no process handle
    it returns and changes nothing.  With a handle (and the monitor that
    [startAsync] stored with it) it returns without raising, also when the
    process has already exited and [terminate()] raises
    [ProcessLookupError]; it logs, signals the process and awaits its exit
    (both skipped when the process is already gone), cancels the monitor
    task and clears both slots, and the process has exited afterwards.  A
    second call then does nothing. *)
Theorem terminateAsync_idempotent :
  terminate_contract IBC.terminateAsync IBC.logger
  /\ terminate_contract IBController.terminateAsync IBController.logger.
Proof. split; apply terminateAsync_contract. Qed.

(** ** startAsync and the process handle *)

Lemma spawned_app tr1 tr2 : spawned (tr1 ++ tr2) = spawned tr1 ++ spawned tr2.
Proof. unfold spawned. apply flat_map_app. Qed.

Lemma live_In g pid :
  In pid (live g) <->
  In pid (spawned (trace g)) /\ existsb (Nat.eqb pid) (exited g) = false.
Proof.
  unfold live. rewrite filter_In, negb_true_iff. reflexivity.
Qed.

Lemma existsb_eqb_cons pid x l :
  existsb (Nat.eqb pid) (x :: l) = false ->
  pid <> x /\ existsb (Nat.eqb pid) l = false.
Proof.
  cbn. intros H. apply orb_false_iff in H. destruct H as [H1 H2].
  split; [|exact H2]. apply Nat.eqb_neq. exact H1.
Qed.

Lemma handle_inv_at_most_one {A} (o : obj A) g :
  handle_inv o g -> (List.length (live g) <= 1)%nat.
Proof.
  intros (_ & _ & Hnd & Hlive).
  assert (Hn : NoDup (live g)) by (apply NoDup_filter; exact Hnd).
  destruct (live g) as [|x [|y l]] eqn:E; cbn; try lia.
  exfalso.
  assert (Hx : _proc o = Some x) by (apply Hlive; left; reflexivity).
  assert (Hy : _proc o = Some y) by (apply Hlive; right; left; reflexivity).
  rewrite Hx in Hy. injection Hy as ->.
  inversion Hn as [|? ? Hnin _]. apply Hnin. left. reflexivity.
Qed.

Lemma handle_inv_frame {A} (o : obj A) g g' :
  handle_inv o g ->
  spawned (trace g') = spawned (trace g) ->
  next_pid g' = next_pid g ->
  (forall pid, existsb (Nat.eqb pid) (exited g') = false ->
               existsb (Nat.eqb pid) (exited g) = false) ->
  handle_inv o g'.
Proof.
  intros (Hs & Hlt & Hnd & Hlive) Etr Enp Hex.
  repeat split; rewrite ?Etr, ?Enp; auto.
  intros pid Hin. apply live_In in Hin. destruct Hin as [Hin Hx].
  apply Hlive. apply live_In. rewrite <- Etr. auto.
Qed.

Lemma handle_inv_cleared {A} (o : obj A) g g' pid (a : A) :
  handle_inv o g -> _proc o = Some pid ->
  spawned (trace g') = spawned (trace g) ->
  next_pid g' = next_pid g ->
  (forall p, existsb (Nat.eqb p) (exited g') = false ->
             existsb (Nat.eqb p) (exited g) = false /\ p <> pid) ->
  handle_inv (mkObj a None None) g'.
Proof.
  intros (Hs & Hlt & Hnd & Hlive) Hp Etr Enp Hex.
  repeat split; rewrite ?Etr, ?Enp; auto.
  intros p Hin. apply live_In in Hin. destruct Hin as [Hin Hx].
  destruct (Hex p Hx) as [Hx' Hne].
  assert (Hq : _proc o = Some p)
    by (apply Hlive; apply live_In; rewrite <- Etr; auto).
  rewrite Hp in Hq. injection Hq as <-. contradiction.
Qed.

Lemma handle_inv_spawn {A} (o : obj A) g g' evs1 evs2 cmd env (a : A) tid :
  handle_inv o g -> _proc o = None ->
  trace g' = trace g ++ evs1 ++ [Spawn (next_pid g) cmd env] ++ evs2 ->
  spawned evs1 = [] -> spawned evs2 = [] ->
  next_pid g' = Datatypes.S (next_pid g) ->
  exited g' = exited g ->
  handle_inv (mkObj a (Some (next_pid g)) (Some tid)) g'.
Proof.
  intros (Hs & Hlt & Hnd & Hlive) Hp Etr E1 E2 Enp Eex.
  assert (Esp : spawned (trace g') = spawned (trace g) ++ [next_pid g]).
  { rewrite Etr, !spawned_app, E1, E2. cbn. reflexivity. }
  repeat split.
  - intros pid Hin. rewrite Esp in Hin. rewrite Enp.
    apply in_app_or in Hin. destruct Hin as [Hin|[<-|[]]]; [|lia].
    specialize (Hlt _ Hin). lia.
  - rewrite Esp. apply NoDup_app; [exact Hnd|repeat constructor; cbn; tauto|].
    intros x Hx [<-|[]]. specialize (Hlt _ Hx). lia.
  - intros pid Hin. apply live_In in Hin. destruct Hin as [Hin Hx].
    rewrite Esp in Hin. rewrite Eex in Hx. cbn [_proc].
    apply in_app_or in Hin. destruct Hin as [Hin|[<-|[]]]; [|reflexivity].
    assert (Hq : _proc o = Some pid) by (apply Hlive; apply live_In; auto).
    congruence.
Qed.

Lemma terminateAsync_handle_inv A logger (o : obj A) g :
  handle_inv o g ->
  match terminateAsync logger o g with
  | (_, o', g') => handle_inv o' g'
  end.
Proof.
  intros H. pose proof H as (Hs & _).
  unfold slots_ok in Hs.
  destruct (_proc o) as [pid|] eqn:Hp; destruct (_monitor o) as [tid|] eqn:Hm;
    try discriminate.
  - rewrite (terminateAsync_handle logger o g Hp Hm).
    apply handle_inv_cleared with (o := o) (g := g) (pid := pid);
      [exact H|exact Hp| | |].
    + unfold terminated. cbn [trace]. rewrite spawned_app. cbn.
      destruct (existsb (Nat.eqb pid) (exited g)); cbn;
        rewrite app_nil_r; reflexivity.
    + reflexivity.
    + intros p. unfold terminated. cbn [exited].
      destruct (existsb (Nat.eqb pid) (exited g)) eqn:E.
      * intros Hx. split; [exact Hx|].
        intros ->. congruence.
      * intros Hx. apply existsb_eqb_cons in Hx. tauto.
  - rewrite terminateAsync_no_handle by assumption. exact H.
Qed.

Lemma process_exits_handle_inv A pid (o : obj A) g :
  handle_inv o g ->
  match process_exits pid o g with
  | (_, o', g') => handle_inv o' g'
  end.
Proof.
  intros H. unfold process_exits, modw.
  apply handle_inv_frame with (g := g); [exact H|reflexivity|reflexivity|].
  cbn [exited]. intros p Hx. apply existsb_eqb_cons in Hx. tauto.
Qed.

Lemma IBC_startAsync_running (o : IBC.IBC) g :
  is_set (_proc o) = true -> IBC.startAsync o g = (Ok tt, o, g).
Proof.
  intros H. unfold IBC.startAsync, bind, gets. rewrite H. reflexivity.
Qed.

Lemma IBController_startAsync_running {lib : PyLib}
    (o : IBController.IBController) g :
  is_set (_proc o) = true -> IBController.startAsync o g = (Ok tt, o, g).
Proof.
  intros H. unfold IBController.startAsync, bind, gets. rewrite H.
  reflexivity.
Qed.

Lemma is_set_false {A} (o : option A) : is_set o = false -> o = None.
Proof. destruct o; [discriminate|reflexivity]. Qed.

Lemma IBC_startAsync_handle_inv (o : IBC.IBC) g :
  handle_inv o g ->
  match IBC.startAsync o g with
  | (_, o', g') => handle_inv o' g'
  end.
Proof.
  intros H.
  destruct (is_set (_proc o)) eqn:Hp.
  - rewrite IBC_startAsync_running by assumption. exact H.
  - apply is_set_false in Hp.
    unfold IBC.startAsync, bind, gets, log, effect, modw, win32, getw,
      raise, modify, create_subprocess_shell, ensure_future.
    rewrite Hp. cbn [is_set attrs].
    destruct (IBC.shell_command _ _) as [cmd|e].
    + cbn [set_proc set_monitor attrs _proc _monitor].
      eapply handle_inv_spawn with (o := o) (g := g)
        (evs1 := [Log _ _ _]) (evs2 := [EnsureFuture _ _]);
        [exact H|exact Hp| | | | |]; cbn; try reflexivity.
      rewrite <- !app_assoc. reflexivity.
    + apply handle_inv_frame with (g := g); [exact H| | |auto].
      * cbn. rewrite spawned_app. cbn. apply app_nil_r.
      * reflexivity.
Qed.

Ltac same_spawned :=
  cbn; rewrite ?spawned_app; cbn; rewrite ?app_nil_r; reflexivity.

Lemma handle_inv_attrs {A} (o : obj A) g (a : A) :
  handle_inv o g -> handle_inv (set_attrs a o) g.
Proof. intros H. exact H. Qed.

Lemma IBController_startAsync_handle_inv {lib : PyLib}
    (o : IBController.IBController) g :
  handle_inv o g ->
  match IBController.startAsync o g with
  | (_, o', g') => handle_inv o' g'
  end.
Proof.
  intros H.
  destruct (is_set (_proc o)) eqn:Hp.
  - rewrite IBController_startAsync_running by assumption. exact H.
  - apply is_set_false in Hp.
    assert (Hlog : handle_inv o (emit (Log IBController.logger INFO "Starting") g)).
    { apply handle_inv_frame with (g := g); [exact H| |reflexivity|auto].
      cbn. rewrite spawned_app. cbn. apply app_nil_r. }
    unfold IBController.startAsync, bind, gets, log, effect, modw, win32,
      getw, modify, create_subprocess_shell, ensure_future.
    rewrite Hp. cbn [is_set attrs].
    destruct (IBController.dict (attrs o)) as [d0|e]; cbn [IBController.lift ret raise];
      [|exact Hlog].
    destruct (IBController.expand_paths d0) as [d|e];
      cbn [IBController.lift ret raise]; [|exact Hlog].
    destruct (IBController.getitem "IBC_PATH" d) as [ibc_path|e];
      cbn [IBController.lift ret raise].
    + cbn [set_proc set_monitor set_attrs attrs _proc _monitor].
      eapply handle_inv_spawn with (o := o) (g := g)
        (evs1 := [Log _ _ _]) (evs2 := [EnsureFuture _ _]);
        [exact H|exact Hp| | | | |]; cbn; try reflexivity.
      rewrite <- !app_assoc. reflexivity.
    + apply handle_inv_attrs. exact Hlog.
Qed.

Lemma IBController_stopAsync_handle_inv {lib : PyLib}
    (o : IBController.IBController) g :
  handle_inv o g ->
  match IBController.stopAsync o g with
  | (_, o', g') => handle_inv o' g'
  end.
Proof.
  intros H. pose proof H as (Hs & _). unfold slots_ok in Hs.
  unfold IBController.stopAsync, IBController.stopAsync_during,
    IBController.suspended, bind, gets.
  destruct (_proc o) as [pid|] eqn:Hp; [|exact H].
  destruct (_monitor o) as [tid|] eqn:Hm; [|discriminate].
  assert (Hlog : handle_inv o (emit (Log IBController.logger INFO "Stopping") g)).
  { apply handle_inv_frame with (g := g); [exact H| |reflexivity|auto].
    cbn. rewrite spawned_app. cbn. apply app_nil_r. }
  unfold log, effect, modw.
  destruct (IBController.getattr "IBC_INI" (attrs o)) as [ini|e];
    cbn [IBController.lift ret raise]; [|exact Hlog].
  unfold open_read. cbn [files emit].
  destruct (lookup ini (files g)) as [content|]; [|exact Hlog].
  destruct (config_getint _ _ _) as [contrPort|]; cbn [ret raise].
  2:{ apply handle_inv_frame with (g := g); [exact H| |reflexivity|auto].
      same_spawned. }
  unfold open_connection. cbn [listening emit].
  destruct (existsb (Z.eqb contrPort) (listening g)).
  2:{ apply handle_inv_frame with (g := g); [exact H| |reflexivity|auto].
      same_spawned. }
  rewrite Hp.
  unfold proc_wait, modify, task_cancel.
  cbn [set_proc set_monitor attrs _proc _monitor].
  rewrite Hm.
  cbn [set_proc set_monitor attrs _proc _monitor].
  apply handle_inv_cleared with (o := o) (g := g) (pid := pid);
    [exact H|exact Hp| |reflexivity|].
  - same_spawned.
  - cbn. intros p Hx. apply orb_false_iff in Hx. destruct Hx as [Hx1 Hx2].
    split; [exact Hx2|]. apply Nat.eqb_neq. exact Hx1.
Qed.

Lemma run_ops_handle_inv {A} (step : op -> M (obj A) unit) :
  (forall x o g, handle_inv o g ->
     match step x o g with (_, o', g') => handle_inv o' g' end) ->
  forall ops o g, handle_inv o g ->
    match run_ops step ops o g with (o', g') => handle_inv o' g' end.
Proof.
  intros Hstep ops. induction ops as [|x rest IH]; intros o g H; cbn.
  - exact H.
  - specialize (Hstep x o g H).
    destruct (step x o g) as [[r o'] g']. apply IH. exact Hstep.
Qed.

Lemma handle_inv_initial {A} (a : A) g :
  trace g = [] -> handle_inv (mkObj a None None) g.
Proof.
  intros E. unfold handle_inv, live, slots_ok. rewrite E. cbn.
  repeat split; try tauto. constructor.
Qed.

Lemma ibc_step_handle_inv x (o : IBC.IBC) g :
  handle_inv o g ->
  match ibc_step x o g with (_, o', g') => handle_inv o' g' end.
Proof.
  destruct x; cbn [ibc_step]; intros H.
  - apply IBC_startAsync_handle_inv. exact H.
  - exact H.
  - apply terminateAsync_handle_inv. exact H.
  - apply process_exits_handle_inv. exact H.
Qed.

Lemma ibcontroller_step_handle_inv {lib : PyLib} x
    (o : IBController.IBController) g :
  handle_inv o g ->
  match ibcontroller_step x o g with (_, o', g') => handle_inv o' g' end.
Proof.
  destruct x; cbn [ibcontroller_step]; intros H.
  - apply IBController_startAsync_handle_inv. exact H.
  - apply IBController_stopAsync_handle_inv. exact H.
  - apply terminateAsync_handle_inv. exact H.
  - apply process_exits_handle_inv. exact H.
Qed.

(** C5. While the process handle is set, [startAsync] of IBC and of
    IBController returns at once: no process is spawned, nothing is logged
    and neither the object nor the world changes.  Hence, whatever
    sequence of start, stop and terminate calls a fresh controller goes
    through, and whenever its process exits by itself, at most one process
    that it has started is alive. *)
Theorem startAsync_noop_while_running :
  forall (lib : PyLib),
    (forall (o : IBC.IBC) g,
        is_set (_proc o) = true -> IBC.startAsync o g = (Ok tt, o, g))
    /\ (forall (o : IBController.IBController) g,
        is_set (_proc o) = true ->
        IBController.startAsync o g = (Ok tt, o, g))
    /\ (forall a g ops,
        trace g = [] ->
        (List.length (live (snd (run_ops ibc_step ops (IBC.__init__ a g) g)))
         <= 1)%nat)
    /\ (forall kwargs g ops,
        trace g = [] ->
        (List.length
           (live (snd (run_ops ibcontroller_step ops
                               (IBController.__init__ kwargs) g)))
         <= 1)%nat).
Proof.
  intros lib. split; [|split; [|split]].
  - intros o g. apply IBC_startAsync_running.
  - intros o g. apply IBController_startAsync_running.
  - intros a g ops E.
    pose proof (run_ops_handle_inv ibc_step ibc_step_handle_inv ops
                  (o := IBC.__init__ a g) (g := g)) as H.
    destruct (run_ops ibc_step ops (IBC.__init__ a g) g) as [o' g'].
    cbn [snd]. apply handle_inv_at_most_one with (o := o').
    apply H. unfold IBC.__init__. apply handle_inv_initial. exact E.
  - intros kwargs g ops E.
    pose proof (run_ops_handle_inv ibcontroller_step
                  ibcontroller_step_handle_inv ops
                  (o := IBController.__init__ kwargs) (g := g)) as H.
    destruct (run_ops ibcontroller_step ops _ g) as [o' g'].
    cbn [snd]. apply handle_inv_at_most_one with (o := o').
    apply H. unfold IBController.__init__. apply handle_inv_initial. exact E.
Qed.

(** ** stopAsync *)

(** C8. [IBController.stopAsync] with a process handle (and its monitor):
    when the file named by [IBC_INI] can be read, the text made of
    ["[section]"] followed by its content has an integer option
    [IbControllerPort] in section [section], and that port accepts on
    127.0.0.1, the call returns after exactly these effects in this order:
    log, read the file, connect to 127.0.0.1 on the port, write the four
    bytes [STOP], drain, close, await the exit of the process, cancel the
    monitor; both slots are clear afterwards.  When the call raises
    instead, the object is as it was.  The handle is cleared only after the
    wait: whatever the other tasks do while the call is suspended in the
    connection, in the drain and in the wait for the exit, they are handed
    the controller with its process and its monitor still set, the wait for
    the exit included, and the slots are cleared once the wait has
    returned. *)
Theorem stopAsync_graceful_shutdown :
  forall (lib : PyLib) (o : IBController.IBController) (g : world)
         (pid tid : nat),
    _proc o = Some pid -> _monitor o = Some tid ->
    (forall ini content contrPort,
        lookup "IBC_INI" (attrs o) = Some ini ->
        lookup ini (files g) = Some content ->
        config_getint ("[section]" ++ content)%string "section"
                      "IbControllerPort" = Some contrPort ->
        existsb (Z.eqb contrPort) (listening g) = true ->
        exists g',
          IBController.stopAsync o g
          = (Ok tt, mkObj (attrs o) None None, g')
          /\ trace g' =
               trace g ++
               [ Log IBController.logger INFO "Stopping";
                 OpenRead ini;
                 OpenConnection "127.0.0.1" contrPort;
                 SockWrite "STOP"; SockDrain; SockClose;
                 WaitExit pid;
                 Cancel tid ]
          /\ String.length "STOP" = 4%nat
          /\ In pid (exited g') /\ In tid (cancelled g'))
    /\ (forall e o' g',
        IBController.stopAsync o g = (Raise e, o', g') ->
        o' = o /\ exited g' = exited g /\ cancelled g' = cancelled g)
    /\ (forall (others : IBController.onlookers) ini content contrPort,
        lookup "IBC_INI" (attrs o) = Some ini ->
        lookup ini (files g) = Some content ->
        config_getint ("[section]" ++ content)%string "section"
                      "IbControllerPort" = Some contrPort ->
        let g1 :=
          others o (emit (OpenRead ini)
                      (emit (Log IBController.logger INFO "Stopping") g)) in
        existsb (Z.eqb contrPort) (listening g1) = true ->
        let g2 :=
          others o (emit (SockWrite "STOP")
                      (emit (OpenConnection "127.0.0.1" contrPort) g1)) in
        let g3 := others o (emit SockClose (emit SockDrain g2)) in
        IBController.stopAsync_during others o g
        = (Ok tt, mkObj (attrs o) None None, waited_cancelled pid tid g3))
    /\ (forall (others : IBController.onlookers) e o' g',
        IBController.stopAsync_during others o g = (Raise e, o', g') ->
        o' = o).
Proof.
  intros lib o g pid tid Hp Hm. split; [|split; [|split]].
  - intros ini content contrPort Hini Hfile Hcfg Hport.
    unfold IBController.stopAsync, IBController.stopAsync_during,
      IBController.suspended, bind, gets, log, effect, modw,
      IBController.getattr, open_read, open_connection, proc_wait, modify,
      task_cancel.
    rewrite Hp, Hini. cbn [IBController.lift ret files emit].
    rewrite Hfile, Hcfg. cbn [ret listening emit]. rewrite Hport, Hp.
    cbn [set_proc set_monitor attrs _proc _monitor]. rewrite Hm.
    eexists. split; [reflexivity|].
    cbn. rewrite <- !app_assoc. cbn. repeat split; left; reflexivity.
  - intros e o' g'.
    unfold IBController.stopAsync, IBController.stopAsync_during,
      IBController.suspended, bind, gets, log, effect, modw,
      IBController.getattr, open_read, open_connection, proc_wait, modify,
      task_cancel.
    rewrite Hp.
    destruct (lookup "IBC_INI" (attrs o)) as [ini|];
      cbn [IBController.lift ret raise files emit];
      [|intros [= <- <- <-]; repeat split].
    destruct (lookup ini (files g)) as [content|];
      [|intros [= <- <- <-]; repeat split].
    destruct (config_getint _ _ _) as [contrPort|];
      cbn [ret raise listening emit];
      [|intros [= <- <- <-]; repeat split].
    destruct (existsb (Z.eqb contrPort) (listening g));
      [|intros [= <- <- <-]; repeat split].
    rewrite Hp.
    cbn [set_proc set_monitor attrs _proc _monitor]. rewrite Hm.
    discriminate.
  - intros others ini content contrPort Hini Hfile Hcfg g1 Hport g2 g3.
    unfold IBController.stopAsync_during,
      IBController.suspended, bind, gets, log, effect, modw,
      IBController.getattr, open_read, open_connection, proc_wait, modify,
      task_cancel.
    rewrite Hp, Hini. cbn [IBController.lift ret files emit].
    rewrite Hfile, Hcfg. cbn [ret].
    fold g1. rewrite Hport. fold g2. rewrite Hp. fold g3.
    cbn [set_proc set_monitor attrs _proc _monitor]. rewrite Hm.
    unfold waited_cancelled. cbn. rewrite <- !app_assoc. reflexivity.
  - intros others e o' g'.
    unfold IBController.stopAsync_during,
      IBController.suspended, bind, gets, log, effect, modw,
      IBController.getattr, open_read, open_connection, proc_wait, modify,
      task_cancel.
    rewrite Hp.
    destruct (lookup "IBC_INI" (attrs o)) as [ini|];
      cbn [IBController.lift ret raise files emit];
      [|intros [= <- <- <-]; reflexivity].
    destruct (lookup ini (files g)) as [content|];
      [|intros [= <- <- <-]; reflexivity].
    destruct (config_getint _ _ _) as [contrPort|];
      cbn [ret raise];
      [|intros [= <- <- <-]; reflexivity].
    destruct (existsb _ _);
      [|intros [= <- <- <-]; reflexivity].
    rewrite Hp.
    cbn [set_proc set_monitor attrs _proc _monitor]. rewrite Hm.
    discriminate.
Qed.

Module IBCCommandFacts.
Import IBCCommand.

Lemma add_arg_tokens w32 l k v :
  lookup k IBC._Args <> None ->
  IBC.add_arg w32 l (k, v) = Ok (l ++ item_tokens w32 (k, v)).
Proof.
  intros H. unfold IBC.add_arg, item_tokens, arg_tokens. cbn [fst snd].
  destruct (lookup k IBC._Args) as [[[dflt unixArg] windowsArg]|];
    [|contradiction].
  cbn [platform_flag].
  destruct (truthy v); [|rewrite app_nil_r; reflexivity].
  destruct (endswith _ "=" || endswith _ ":"); [reflexivity|].
  destruct (String.eqb _ ""); reflexivity.
Qed.

Lemma add_args_tokens w32 items :
  forall l,
    (forall kv, In kv items -> lookup (fst kv) IBC._Args <> None) ->
    IBC.add_args w32 l items = Ok (l ++ flat_map (item_tokens w32) items).
Proof.
  induction items as [|[k v] rest IH]; intros l H; cbn [IBC.add_args flat_map].
  - rewrite app_nil_r. reflexivity.
  - rewrite add_arg_tokens by (apply (H (k, v)); left; reflexivity).
    rewrite IH by (intros kv Hin; apply H; right; exact Hin).
    rewrite <- app_assoc. reflexivity.
Qed.

Lemma dict_keys_in_table a kv :
  In kv (IBC.dict a) -> lookup (fst kv) IBC._Args <> None.
Proof.
  unfold IBC.dict. cbn [In].
  intros H. repeat (destruct H as [<-|H]; [cbn; discriminate|]).
  contradiction.
Qed.

Lemma dict_tokens_table_order w32 a :
  flat_map (item_tokens w32) (IBC.dict a) = table_tokens w32 a.
Proof. reflexivity. Qed.

Lemma shell_command_command_line w32 a :
  IBC.shell_command w32 a = Ok (command_line w32 a).
Proof.
  unfold IBC.shell_command, command_line.
  rewrite add_args_tokens by apply dict_keys_in_table.
  rewrite dict_tokens_table_order.
  unfold script. destruct w32; reflexivity.
Qed.

End IBCCommandFacts.

(** C7. The shell command that [IBC.startAsync] builds and runs is the
    start script followed by the tokens of the arguments, taken in the
    order of the table [_Args] and joined by single spaces.  An argument
    whose value is empty or [None] gives no token; one with a value gives
    one token: flag and value together when the flag of the platform ends
    in [=] or [:], a bare token otherwise (the flag itself, or the value
    where the table has no flag). *)
Theorem IBC_command_line :
  forall (o : IBC.IBC) (g : world),
    let w32 := String.eqb (platform g) "win32" in
    let a := attrs o in
    let flag k := if w32 then snd k else fst k in
    IBC.shell_command w32 a
    = Ok (join " " (IBCCommand.script w32 a :: IBCCommand.table_tokens w32 a))
    /\ IBCCommand.table_tokens w32 a =
         IBCCommand.arg_tokens (flag ("", "")) (IBC.twsVersion a)
         ++ IBCCommand.arg_tokens (flag ("--gateway", "/Gateway")) (IBC.gateway a)
         ++ IBCCommand.arg_tokens (flag ("--mode=", "/Mode:")) (IBC.tradingMode a)
         ++ IBCCommand.arg_tokens (flag ("--tws-path=", "/TwsPath:")) (IBC.twsPath a)
         ++ IBCCommand.arg_tokens (flag ("--tws-settings-path=", ""))
              (IBC.twsSettingsPath a)
         ++ IBCCommand.arg_tokens (flag ("--ibc-path=", "/IbcPath:")) (IBC.ibcPath a)
         ++ IBCCommand.arg_tokens (flag ("--ibc-ini=", "/Config:")) (IBC.ibcIni a)
         ++ IBCCommand.arg_tokens (flag ("--java-path=", "/JavaPath:")) (IBC.javaPath a)
         ++ IBCCommand.arg_tokens (flag ("--user=", "/User:")) (IBC.userid a)
         ++ IBCCommand.arg_tokens (flag ("--pw=", "/PW:")) (IBC.password a)
         ++ IBCCommand.arg_tokens (flag ("--fix-user=", "/FIXUser:")) (IBC.fixuserid a)
         ++ IBCCommand.arg_tokens (flag ("--fix-pw=", "/FIXPW:")) (IBC.fixpassword a)
    /\ (_proc o = None ->
        exists o' g',
          IBC.startAsync o g = (Ok tt, o', g')
          /\ trace g' =
               trace g ++
               [ Log IBC.logger INFO "Starting";
                 Spawn (next_pid g)
                       (join " " (IBCCommand.script w32 a
                                  :: IBCCommand.table_tokens w32 a))
                       (environ g);
                 EnsureFuture (next_tid g) MonitorAsync ])
    /\ (forall f v, truthy v = false -> IBCCommand.arg_tokens f v = [])
    /\ (forall f v,
          truthy v = true -> endswith f "=" || endswith f ":" = true ->
          IBCCommand.arg_tokens f v = [(f ++ str v)%string])
    /\ (forall f v,
          truthy v = true -> endswith f "=" || endswith f ":" = false ->
          IBCCommand.arg_tokens f v = [if String.eqb f "" then str v else f]).
Proof.
  intros o g w32 a flag.
  split; [apply IBCCommandFacts.shell_command_command_line|].
  split.
  { subst flag. unfold IBCCommand.table_tokens, IBC._Args.
    destruct w32; cbn -[IBCCommand.arg_tokens]; rewrite app_nil_r;
      reflexivity. }
  split.
  { intros Hp.
    unfold IBC.startAsync, bind, gets, log, effect, modw, win32, getw,
      raise, modify, create_subprocess_shell, ensure_future.
    rewrite Hp. cbn [is_set attrs platform emit].
    fold w32. fold a. rewrite IBCCommandFacts.shell_command_command_line.
    do 2 eexists. split; [reflexivity|].
    cbn. rewrite <- !app_assoc. reflexivity. }
  unfold IBCCommand.arg_tokens.
  split; [intros f v ->; reflexivity|].
  split; intros f v -> ->; [reflexivity|].
  destruct (String.eqb f ""); reflexivity.
Qed.

(** ** The watchdog *)

Module WatchdogFacts.
Import Watchdog WatchdogSpec.

Lemma terminateAsync_cleared A lg (o : obj A) g :
  slots_ok o ->
  terminateAsync lg o g = (Ok tt, cleared o, terminate_world lg o g).
Proof.
  unfold slots_ok, terminate_world, cleared. intros H.
  destruct (_proc o) as [pid|] eqn:Hp; destruct (_monitor o) as [tid|] eqn:Hm;
    try discriminate.
  - apply terminateAsync_handle; assumption.
  - rewrite terminateAsync_no_handle by assumption.
    destruct o; cbn in *; subst; reflexivity.
Qed.

Lemma terminate_world_timers A lg (o : obj A) g :
  timers (terminate_world lg o g) = timers g.
Proof.
  unfold terminate_world. destruct (_proc o), (_monitor o); reflexivity.
Qed.

Section WithLib.

Context {lib : PyLib}.

Lemma stop_constructed w g :
  constructed w -> stop w g = (Ok tt, stopped w, stop_world w g).
Proof.
  intros ((c & Hc & Hok) & (i & Hi) & _).
  unfold stopped, stop_world.
  cbv [stop bind log effect modw on_ib gets zoom ib_disconnect modify
       controller_call raise ret].
  rewrite Hi. cbn [set_ib controller option_map ib host port clientId
    connectTimeout appStartupTime appTimeout retryDelay _watcher].
  rewrite Hc. cbn [option_map].
  destruct c as [o|o]; cbn [ctrl_ok terminated_ctrl] in *.
  - unfold IBC.terminate, IBC.terminateAsync.
    rewrite terminateAsync_cleared by assumption.
    destruct w; reflexivity.
  - unfold IBController.terminate, IBController.terminateAsync.
    rewrite terminateAsync_cleared by assumption.
    destruct w; reflexivity.
Qed.

Lemma stopped_constructed w : constructed w -> constructed (stopped w).
Proof.
  intros ((c & Hc & Hok) & (i & Hi) & Ht & Hr).
  unfold constructed, stopped. cbn. rewrite Hc, Hi. cbn.
  repeat split; try tauto; try (eexists; reflexivity).
  exists (terminated_ctrl c). split; [reflexivity|].
  destruct c; reflexivity.
Qed.

Lemma stop_world_timers w g : timers (stop_world w g) = timers g.
Proof.
  unfold stop_world. destruct (controller w) as [[o|o]|];
    rewrite ?terminate_world_timers; reflexivity.
Qed.

Lemma scheduleRestart_run w g :
  scheduleRestart w g = (Ok tt, w, restart_scheduled w g).
Proof.
  unfold scheduleRestart, restart_scheduled, bind, gets, log, effect, modw,
    call_later.
  cbn. rewrite <- !app_assoc. reflexivity.
Qed.

Lemma lookup_setitem {V} k (v : V) d : lookup k (setitem k v d) = Some v.
Proof.
  induction d as [|[k' v'] rest IH]; cbn.
  - rewrite String.eqb_refl. reflexivity.
  - destruct (String.eqb k k') eqn:E; cbn; rewrite ?String.eqb_refl, ?E;
      [reflexivity|exact IH].
Qed.

Lemma bounds_test (t r : Z) :
  0 < t < 60 -> r > 0 -> (0 <? t) && (t <? 60) = true /\ (r >? 0) = true.
Proof.
  intros Ht Hr. split.
  - apply andb_true_iff. split; apply Z.ltb_lt; lia.
  - apply Z.gtb_lt. lia.
Qed.

(** A watchdog that construction returns is [constructed], when the
    controller it was given has its slots in agreement. *)
Lemma new_constructed args g w g' c :
  controller args = Some c -> ctrl_ok c ->
  new args g = (Ok w, g') -> constructed w.
Proof.
  intros Hc Hok. unfold new.
  cbv [__init__ bind gets assert raise ret].
  rewrite Hc. cbn [is_set].
  destruct ((0 <? appTimeout args) && (appTimeout args <? 60)) eqn:Et;
    [|discriminate].
  apply andb_true_iff in Et. destruct Et as [E1 E2].
  apply Z.ltb_lt in E1. apply Z.ltb_lt in E2.
  destruct (retryDelay args >? 0) eqn:Er; [|discriminate].
  apply Z.gtb_lt in Er.
  cbv [new_IB effect modw modify on_ib gets bind zoom ib_set_apiError
       ib_setCallback ensure_future raise ret].
  destruct (ib args) as [i|] eqn:Ei; cbn [is_set set_ib ib];
    rewrite ?Ei; intros [= <- <-]; unfold constructed; cbn;
    (split; [exists c; split; assumption|]);
    (split; [eexists; reflexivity|]); lia.
Qed.

(** C4. Constructing a Watchdog raises [AssertionError], and has no effect
    at all, for every configuration in which [0 < appTimeout < 60] or
    [retryDelay > 0] does not hold; and every Watchdog that construction
    does return satisfies both bounds, on the values it was configured
    with. *)
Theorem construction_enforces_bounds :
  forall (args : Watchdog) (g : world),
    (~ (0 < appTimeout args < 60) \/ ~ (retryDelay args > 0) ->
       new args g = (Raise AssertionError, g))
    /\ (forall w g',
          new args g = (Ok w, g') ->
          0 < appTimeout w < 60 /\ retryDelay w > 0
          /\ appTimeout w = appTimeout args
          /\ retryDelay w = retryDelay args).
Proof.
  intros args g.
  unfold new.
  cbv [__init__ bind gets assert raise ret].
  destruct (is_set (controller args)).
  2:{ split; [reflexivity|discriminate]. }
  destruct ((0 <? appTimeout args) && (appTimeout args <? 60)) eqn:Et.
  2:{ split; [reflexivity|discriminate]. }
  apply andb_true_iff in Et. destruct Et as [E1 E2].
  apply Z.ltb_lt in E1. apply Z.ltb_lt in E2.
  destruct (retryDelay args >? 0) eqn:Er.
  2:{ split; [reflexivity|discriminate]. }
  apply Z.gtb_lt in Er.
  split; [intros [H|H]; exfalso; apply H; lia|].
  intros w g'.
  cbv [new_IB effect modw modify on_ib gets bind zoom ib_set_apiError
       ib_setCallback ensure_future raise ret].
  destruct (ib args) as [i|] eqn:Ei; cbn [is_set set_ib ib];
    rewrite ?Ei; intros [= <- <-]; cbn; repeat split; lia.
Qed.

(** C10, as stated, fails in its last clause: construction does not
    require a running event loop.  The script of the module, run by an
    interpreter whose loop is not running, constructs the watchdog of the
    example: the construction returns, the watch task is on the loop, and
    the loop is still not running; it runs only from [IB.run()], the last
    statement of the script. *)
Lemma construction_before_loop_runs :
  let s0 := Script.mkInterp false Example.world0 in
  (exists w s1,
      Script.construct Example.args0 s0 = (Ok w, s1)
      /\ Script.loop_running s1 = false
      /\ tasks (Script.now s1) = [(0%nat, WatchAsync)]
      /\ _watcher w = Some 0%nat)
  /\ (exists s',
        Script.main (lib := Example.pylib) s0 = (Ok tt, s')
        /\ Script.loop_running s' = true
        /\ firstn 2 (trace (Script.now s'))
           = [NewIB; EnsureFuture 0 WatchAsync])
  /\ ~ (forall args s w s',
          Script.construct args s = (Ok w, s') ->
          Script.loop_running s = true).
Proof.
  cbv zeta. split; [|split].
  - do 2 eexists. vm_compute. repeat split.
  - eexists. vm_compute. repeat split.
  - intros H.
    specialize (H Example.args0 (Script.mkInterp false Example.world0)).
    vm_compute in H. specialize (H _ _ eq_refl). discriminate.
Qed.

(** C10, amended. Constructing a Watchdog with a controller and delays
    within the bounds returns it, whether the event loop is running or
    not, and leaves the loop as it was; before any [start()] it has
    already: made a new IB client when none was passed; set the api-error
    handler of the client and its ['error'] callback to the handlers of the
    watchdog, whatever they were; and put the [watchAsync] task on the
    event loop, whose task list it extends by that task.  Nothing else has
    happened: no process was started, no timer set, no connection made. *)
Theorem construction_side_effects :
  forall (args : Watchdog) (s : Script.interp) (c : controller_obj),
    controller args = Some c ->
    0 < appTimeout args < 60 ->
    retryDelay args > 0 ->
    let g := Script.now s in
    let client :=
      match ib args with Some i => i | None => mkIB None [] false None end in
    let tid := next_tid g in
    exists w g' i,
      Script.construct args s
      = (Ok w, Script.mkInterp (Script.loop_running s) g')
      /\ new args g = (Ok w, g')
      /\ w = set_watcher (Some tid) (set_ib (Some i) args)
      /\ apiError i = Some OnApiError
      /\ lookup "error" (callbacks i) = Some OnError
      /\ callbacks i = setitem "error" OnError (callbacks client)
      /\ connected i = connected client
      /\ idle_timeout i = idle_timeout client
      /\ trace g' =
           trace g
           ++ (match ib args with None => [NewIB] | Some _ => [] end)
           ++ [EnsureFuture tid WatchAsync]
      /\ tasks g' = tasks g ++ [(tid, WatchAsync)]
      /\ timers g' = timers g
      /\ next_pid g' = next_pid g
      /\ exited g' = exited g.
Proof.
  intros args s c Hc Ht Hr g client tid.
  destruct (bounds_test Ht Hr) as [Bt Br].
  unfold Script.construct. fold g.
  unfold new.
  cbv [__init__ bind gets assert raise ret].
  rewrite Hc. cbn [is_set]. rewrite Bt. cbn [is_set]. rewrite Br.
  cbn [is_set].
  cbv [new_IB effect modw modify on_ib gets bind zoom ib_set_apiError
       ib_setCallback ensure_future raise ret].
  subst client.
  destruct (ib args) as [i|] eqn:Ei; cbn [is_set set_ib ib]; rewrite ?Ei;
    do 3 eexists; (split; [reflexivity|]); (split; [reflexivity|]);
    cbn; rewrite ?lookup_setitem, <- ?app_assoc; repeat split.
  cbn [callbacks]. apply lookup_setitem.
Qed.

(** C3, as stated, fails: two calls of [scheduleRestart] in a row, starting
    with no timer pending, leave two restart callbacks pending, and nothing
    has been cancelled; when the loop then runs the two timers, [start()]
    runs twice (each run sleeps once for the start-up time). *)
Lemma scheduleRestart_twice_two_pending :
  timers Example.world1 = []
  /\ match (scheduleRestart ;; scheduleRestart)
            Example.watchdog1 Example.world1 with
     | (r, _, g) =>
         r = Ok tt
         /\ timers g = [(1, CbStart); (1, CbStart)]
         /\ cancelled g = []
     end
  /\ match (scheduleRestart ;; scheduleRestart ;;
            fire_timer (lib := Example.pylib) ;;
            fire_timer (lib := Example.pylib))
            Example.watchdog1 Example.world1 with
     | (r, _, g) =>
         r = Ok tt
         /\ filter (fun e => match e with IBSleep _ => true | _ => false end)
                   (trace g)
            = [IBSleep 30; IBSleep 30]
     end.
Proof.
  split; [reflexivity|]. split; vm_compute; repeat split.
Qed.

(** C3, amended. Each call of [scheduleRestart] adds one pending delayed
    [start] of delay [retryDelay] after the ones already pending and
    cancels nothing: every restart scheduled earlier stays pending, and
    [n] calls in a row add [n] of them. *)
Theorem scheduleRestart_adds_one_pending :
  forall (w : Watchdog) (g : world),
    (exists g',
        scheduleRestart w g = (Ok tt, w, g')
        /\ timers g' = timers g ++ [(retryDelay w, CbStart)]
        /\ cancelled g' = cancelled g
        /\ tasks g' = tasks g)
    /\ (forall n,
          exists g',
            times n scheduleRestart w g = (Ok tt, w, g')
            /\ timers g' = timers g ++ repeat (retryDelay w, CbStart) n).
Proof.
  intros w g. split.
  - exists (restart_scheduled w g). rewrite scheduleRestart_run.
    repeat split.
  - intros n. revert g. induction n as [|n IH]; intros g.
    + exists g. split; [reflexivity|]. cbn. rewrite app_nil_r. reflexivity.
    + destruct (IH (restart_scheduled w g)) as (g' & E & Ht).
      exists g'. split.
      * cbn [times]. rewrite (bind_ok _ _ _ _ (scheduleRestart_run w g)).
        exact E.
      * rewrite Ht. cbn [restart_scheduled timers repeat].
        rewrite <- app_assoc. reflexivity.
Qed.

Lemma terminate_world_trace A lg (o : obj A) g :
  trace (terminate_world lg o g) = trace g ++ terminate_events lg o g.
Proof.
  unfold terminate_world, terminate_events.
  destruct (_proc o), (_monitor o); cbn; rewrite ?app_nil_r; reflexivity.
Qed.

Lemma stop_world_trace w g :
  trace (stop_world w g) = trace g ++ stop_events w g.
Proof.
  unfold stop_world, stop_events.
  destruct (controller w) as [[o|o]|]; rewrite ?terminate_world_trace;
    cbn; rewrite <- ?app_assoc; reflexivity.
Qed.

Lemma onError_fatal w g reqId errorString contract :
  constructed w ->
  onError reqId 1100 errorString contract w g
  = (Ok tt, stopped w,
     restart_scheduled w
       (stop_world w
          (emit (Log logger INFO ("Error 1100: " ++ errorString)) g))).
Proof.
  intros Hw. unfold onError. cbn [Z.eqb Pos.eqb].
  unfold log, effect.
  rewrite (bind_ok _ _ _ _ (eq_refl : modw _ w g = (Ok tt, w, _))).
  rewrite (bind_ok _ _ _ _ (stop_constructed _ Hw)).
  rewrite scheduleRestart_run. reflexivity.
Qed.

(** C2. [onError] on a constructed watchdog.  With error code 1100 it logs
    the error, performs [stop()] and then [scheduleRestart()], which adds
    to the timers of the loop one call of [start] that is [retryDelay]
    seconds away, and [retryDelay] is positive.  With any other error code
    it returns with the watchdog and the world exactly as they were. *)
Theorem onError_restarts_only_on_1100 :
  forall (w : Watchdog) (g : world) (reqId errorCode : Z)
         (errorString : string) (contract : option string),
    constructed w ->
    (errorCode = 1100 ->
       exists g',
         onError reqId errorCode errorString contract w g
         = (Ok tt, stopped w, g')
         /\ (log logger INFO ("Error 1100: " ++ errorString)%string ;;
             stop ;; scheduleRestart) w g = (Ok tt, stopped w, g')
         /\ trace g' =
              trace g
              ++ [Log logger INFO ("Error 1100: " ++ errorString)]
              ++ stop_events w g
              ++ [ Log logger INFO
                       ("Schedule restart in "
                        ++ str (PyInt (retryDelay w)) ++ "s");
                   CallLater (retryDelay w) CbStart ]
         /\ timers g' = timers g ++ [(retryDelay w, CbStart)]
         /\ 0 < retryDelay w)
    /\ (errorCode <> 1100 ->
          onError reqId errorCode errorString contract w g = (Ok tt, w, g)).
Proof.
  intros w g reqId errorCode errorString contract Hw. split.
  - intros ->. eexists. split; [apply onError_fatal; exact Hw|].
    split; [symmetry; rewrite <- (onError_fatal g reqId errorString contract Hw);
            reflexivity|].
    split; [|split].
    + cbn [restart_scheduled trace]. rewrite stop_world_trace.
      cbn [emit trace]. rewrite <- !app_assoc. reflexivity.
    + cbn [restart_scheduled timers]. rewrite stop_world_timers. reflexivity.
    + apply Hw.
  - intros Hne. unfold onError.
    destruct (errorCode =? 1100) eqn:E; [|reflexivity].
    apply Z.eqb_eq in E. contradiction.
Qed.






Lemma trace_emits evs g : trace (emits evs g) = trace g ++ evs.
Proof.
  revert g. induction evs as [|e evs IH]; intros g; cbn.
  - rewrite app_nil_r. reflexivity.
  - unfold emits in IH. rewrite IH. cbn. rewrite <- app_assoc. reflexivity.
Qed.

Lemma timers_emits evs g : timers (emits evs g) = timers g.
Proof.
  revert g. induction evs as [|e evs IH]; intros g; cbn; [reflexivity|].
  unfold emits in IH. rewrite IH. reflexivity.
Qed.



End WithLib.

End WatchdogFacts.

(** ** monitorAsync *)

Section MonitorFacts.

Variable A : Type.
Variable lg : string.
Variable lvl : level.

(** The monitor assigns to nothing: the object it leaves is the object it
    was given, changed only by what the other tasks did during the reads
    it consumed; and of the world it changes the trace alone. *)
Lemma monitorAsync_frame reads :
  forall (self : obj A) g,
    match monitorAsync lg lvl reads self g with
    | (_, self', g') =>
        (exists n, self' = interfered (firstn n reads) self)
        /\ (exists evs, g' = fold_left (fun g e => emit e g) evs g)
    end.
Proof.
  induction reads as [|[line others] rest IH]; intros self g.
  - cbn. destruct (_proc self);
      (split; [exists 0%nat; reflexivity|exists []; reflexivity]).
  - cbn [monitorAsync]. destruct (_proc self).
    2:{ split; [exists 0%nat; reflexivity|exists []; reflexivity]. }
    destruct line as [|b line].
    { split; [exists 1%nat; reflexivity|exists []; reflexivity]. }
    destruct (decode (strip (b :: line))) as [text|].
    2:{ split; [exists 1%nat; reflexivity|exists []; reflexivity]. }
    specialize (IH (others self) (emit (Log lg lvl text) g)).
    destruct (monitorAsync lg lvl rest (others self) _) as [[st self'] g'].
    destruct IH as ((k & Hk) & (evs & Hevs)). split.
    + exists (Datatypes.S k). exact Hk.
    + exists (Log lg lvl text :: evs). exact Hevs.
Qed.

(** With the handle set throughout and every line well-formed UTF-8, the
    monitor forwards the lines in order and is waiting for the next one; at
    the end of the stream it returns. *)
Lemma monitorAsync_forwards lines :
  forall (self : obj A) g,
    _proc self <> None ->
    (forall line, In line lines ->
                  line <> [] /\ decode (strip line) <> None) ->
    monitorAsync lg lvl (map quiet lines) self g
    = (Awaiting, self, fold_left (fun g e => emit e g)
                                 (forwarded lg lvl lines) g)
    /\ monitorAsync lg lvl (map quiet lines ++ [quiet []]) self g
       = (Returned, self, fold_left (fun g e => emit e g)
                                    (forwarded lg lvl lines) g).
Proof.
  induction lines as [|line rest IH]; intros self g Hp Hl.
  - cbn. destruct (_proc self); [split; reflexivity|contradiction].
  - cbn [map app monitorAsync quiet forwarded].
    destruct (_proc self) eqn:E; [|contradiction].
    destruct (Hl line (or_introl eq_refl)) as [Hne Hdec].
    destruct line as [|b line]; [contradiction|].
    destruct (decode (strip (b :: line))) as [text|]; [|contradiction].
    cbn [fold_left]. apply IH.
    + rewrite E. discriminate.
    + intros l Hin. apply Hl. right. exact Hin.
Qed.

(** While the handle is set, a line that is not well-formed UTF-8 ends the
    monitor with [UnicodeDecodeError]; the line is not logged. *)
Lemma monitorAsync_undecodable line rest others (self : obj A) g :
  _proc self <> None -> line <> [] -> decode (strip line) = None ->
  monitorAsync lg lvl ((line, others) :: rest) self g
  = (Raised UnicodeDecodeError, others self, g).
Proof.
  intros Hp Hne Hdec. cbn [monitorAsync].
  destruct (_proc self); [|contradiction].
  destruct line; [contradiction|]. rewrite Hdec. reflexivity.
Qed.

End MonitorFacts.

(** C9, at a line that is not UTF-8.  With the process handle set, the
    monitor of IBC and the monitor of IBController read the line
    [b'\xff\n'] (the bytes 255 and 10), and [line.strip().decode()] raises
    [UnicodeDecodeError]: the loop ends by raising, although the stream has
    not ended and the handle is still set, the line is not forwarded to the
    log, and the lines that follow are never read.  The object is left
    untouched. *)
Theorem monitorAsync_raises_on_invalid_utf8 :
  forall (a1 : IBC.Attrs) (a2 : IBController.Attrs) (pid : nat)
         (tid : option nat) (g : world)
         (rest1 : list (bytes * (IBC.IBC -> IBC.IBC)))
         (rest2 : list (bytes * (IBController.IBController
                                 -> IBController.IBController))),
    IBC.monitorAsync (quiet [255; 10] :: rest1) (mkObj a1 (Some pid) tid) g
    = (Raised UnicodeDecodeError, mkObj a1 (Some pid) tid, g)
    /\ IBController.monitorAsync (quiet [255; 10] :: rest2)
                                 (mkObj a2 (Some pid) tid) g
       = (Raised UnicodeDecodeError, mkObj a2 (Some pid) tid, g).
Proof. intros. split; reflexivity. Qed.

(* ================================================================== *)
(** * The example, through the theorems *)

Ltac example_constructed :=
  unfold WatchdogSpec.constructed; cbn;
  repeat split; try lia; eexists; try split; reflexivity.


(** Error 1100 on the example watchdog: the restart is one second away. *)
Lemma onError_restarts_only_on_1100_witness :
  WatchdogSpec.constructed Example.watchdog1
  /\ exists g',
       Watchdog.onError 7 1100 "Connectivity lost"
                        None Example.watchdog1 Example.world1
       = (Ok tt, WatchdogSpec.stopped Example.watchdog1, g')
       /\ timers g' = [(1, CbStart)].
Proof.
  assert (H : WatchdogSpec.constructed Example.watchdog1)
    by example_constructed.
  split; [exact H|].
  destruct (@WatchdogFacts.onError_restarts_only_on_1100
              Example.watchdog1 Example.world1 7 1100 "Connectivity lost"
              None H) as [Hfatal _].
  destruct (Hfatal eq_refl) as (g' & E & _ & _ & Ht & _).
  exists g'. split; [exact E|exact Ht].
Defined.

(** An [appTimeout] of 60 seconds fails construction. *)
Lemma construction_enforces_bounds_witness :
  ~ (0 < 60 < 60)
  /\ Watchdog.new
       (Watchdog.mkWatchdog (Some (Watchdog.CtlIBC Example.ibc0))
                            "127.0.0.1" (PyInt 4002) 1 2 None 30 60 1 None)
       Example.world0
     = (Raise AssertionError, Example.world0).
Proof.
  assert (H : ~ (0 < 60 < 60)) by lia.
  split; [exact H|].
  exact (proj1 (WatchdogFacts.construction_enforces_bounds
                  (Watchdog.mkWatchdog
                     (Some (Watchdog.CtlIBC Example.ibc0))
                     "127.0.0.1" (PyInt 4002) 1 2 None 30 60 1 None)
                  Example.world0)
               (or_introl H)).
Defined.

(** Starting the started controllers of the example once more. *)
Lemma startAsync_noop_while_running_witness :
  IBC.startAsync Example.ibc1 Example.world1
  = (Ok tt, Example.ibc1, Example.world1)
  /\ IBController.startAsync (lib := Example.pylib) Example.ibcontroller1
                             Example.world2
     = (Ok tt, Example.ibcontroller1, Example.world2).
Proof.
  destruct (startAsync_noop_while_running Example.pylib)
    as (H1 & H2 & _).
  split.
  - apply H1. reflexivity.
  - apply H2. reflexivity.
Defined.

(** Terminating the started IBC of the example. *)
Lemma terminateAsync_idempotent_witness :
  exists o' g',
    IBC.terminateAsync Example.ibc1 Example.world1 = (Ok tt, o', g')
    /\ _proc o' = None
    /\ IBC.terminateAsync o' g' = (Ok tt, o', g').
Proof.
  destruct terminateAsync_idempotent as [H _].
  destruct (H Example.ibc1 Example.world1) as [_ H2].
  destruct (H2 0%nat 0%nat eq_refl eq_refl)
    as (o' & g' & E & P & _ & _ & _ & _ & _ & _ & I).
  exists o', g'. repeat split; assumption.
Defined.

(** The command of [IBC(969, gateway=True, tradingMode='paper')]. *)
Lemma IBC_command_line_witness :
  IBC.shell_command false (attrs Example.ibc0)
  = Ok "/opt/ibc/scripts/ibcstart.sh 969 --gateway --mode=paper --ibc-path=/opt/ibc"
  /\ IBCCommand.arg_tokens "--user=" PyNone = []
  /\ IBCCommand.arg_tokens "--mode=" (PyStr "paper") = ["--mode=paper"]
  /\ IBCCommand.arg_tokens "--gateway" (PyBool true) = ["--gateway"].
Proof.
  pose proof (IBC_command_line Example.ibc0 Example.world0) as H.
  cbv zeta in H. destruct H as (H1 & _ & _ & H4 & H5 & H6).
  split; [exact H1|].
  split; [exact (H4 "--user=" PyNone eq_refl)|].
  split; [exact (H5 "--mode=" (PyStr "paper") eq_refl eq_refl)|].
  exact (H6 "--gateway" (PyBool true) eq_refl eq_refl).
Defined.

(** Stopping the started IBController of the example, alone and next to
    a task that looks at the handle at every suspension. *)
Lemma stopAsync_graceful_shutdown_witness :
  (exists g',
      IBController.stopAsync (lib := Example.pylib) Example.ibcontroller1
                             Example.world2
      = (Ok tt, mkObj (attrs Example.ibcontroller1) None None, g')
      /\ In (SockWrite "STOP") (trace g'))
  /\ exists g',
       IBController.stopAsync_during (lib := Example.pylib) handle_watcher
                                     Example.ibcontroller1 Example.world2
       = (Ok tt, mkObj (attrs Example.ibcontroller1) None None, g')
       /\ skipn (List.length (trace Example.world2)) (trace g')
          = [ Log IBController.logger INFO "Stopping";
              OpenRead "/home/ib/IBController/IBController.ini";
              Log "observer" DEBUG "process held";
              OpenConnection "127.0.0.1" 7462;
              SockWrite "STOP";
              Log "observer" DEBUG "process held";
              SockDrain; SockClose;
              Log "observer" DEBUG "process held";
              WaitExit 0; Cancel 0 ].
Proof.
  destruct (@stopAsync_graceful_shutdown Example.pylib
              Example.ibcontroller1 Example.world2 0%nat 0%nat
              eq_refl eq_refl) as (H & _ & H3 & _).
  split.
  - destruct (H "/home/ib/IBController/IBController.ini"
                "# IBController settings
IbControllerPort=7462
" 7462 eq_refl eq_refl eq_refl eq_refl) as (g' & E & Htr & _).
    exists g'. split; [exact E|].
    rewrite Htr. apply in_or_app. right. cbn. tauto.
  - pose proof (H3 handle_watcher "/home/ib/IBController/IBController.ini"
                  "# IBController settings
IbControllerPort=7462
" 7462 eq_refl eq_refl eq_refl) as E.
    cbv zeta in E. specialize (E eq_refl).
    eexists. split; [exact E|]. vm_compute. reflexivity.
Defined.

(** Constructing the watchdog of the example without an IB client, on a
    loop that is not running. *)
Lemma construction_side_effects_witness :
  exists w g',
    Script.construct Example.args0 (Script.mkInterp false Example.world0)
    = (Ok w, Script.mkInterp false g')
    /\ trace g' = [NewIB; EnsureFuture 0 WatchAsync]
    /\ tasks g' = [(0%nat, WatchAsync)].
Proof.
  assert (Ht : 0 < Watchdog.appTimeout Example.args0 < 60) by (cbn; lia).
  assert (Hr : Watchdog.retryDelay Example.args0 > 0) by (cbn; lia).
  destruct (@WatchdogFacts.construction_side_effects Example.args0
              (Script.mkInterp false Example.world0)
              (Watchdog.CtlIBC Example.ibc0) eq_refl Ht Hr)
    as (w & g' & i & E & _ & _ & _ & _ & _ & _ & _ & Htr & Hta & _).
  exists w, g'. split; [exact E|]. split; [exact Htr|exact Hta].
Defined.

(* ================================================================== *)
(** * Further properties *)

Module MoreFacts.
Import Watchdog WatchdogSpec More.

(** ** IBC: construction and the command *)

Lemma table_tokens_unfold w32 a :
  IBCCommand.table_tokens w32 a =
    IBCCommand.arg_tokens (if w32 then "" else "") (IBC.twsVersion a)
    ++ IBCCommand.arg_tokens (if w32 then "/Gateway" else "--gateway")
         (IBC.gateway a)
    ++ IBCCommand.arg_tokens (if w32 then "/Mode:" else "--mode=")
         (IBC.tradingMode a)
    ++ IBCCommand.arg_tokens (if w32 then "/TwsPath:" else "--tws-path=")
         (IBC.twsPath a)
    ++ IBCCommand.arg_tokens (if w32 then "" else "--tws-settings-path=")
         (IBC.twsSettingsPath a)
    ++ IBCCommand.arg_tokens (if w32 then "/IbcPath:" else "--ibc-path=")
         (IBC.ibcPath a)
    ++ IBCCommand.arg_tokens (if w32 then "/Config:" else "--ibc-ini=")
         (IBC.ibcIni a)
    ++ IBCCommand.arg_tokens (if w32 then "/JavaPath:" else "--java-path=")
         (IBC.javaPath a)
    ++ IBCCommand.arg_tokens (if w32 then "/User:" else "--user=")
         (IBC.userid a)
    ++ IBCCommand.arg_tokens (if w32 then "/PW:" else "--pw=")
         (IBC.password a)
    ++ IBCCommand.arg_tokens (if w32 then "/FIXUser:" else "--fix-user=")
         (IBC.fixuserid a)
    ++ IBCCommand.arg_tokens (if w32 then "/FIXPW:" else "--fix-pw=")
         (IBC.fixpassword a).
Proof.
  unfold IBCCommand.table_tokens, IBC._Args.
  destruct w32; cbn -[IBCCommand.arg_tokens]; rewrite app_nil_r; reflexivity.
Qed.

(** X1. A constructed IBC always has an [ibcPath]: the configured one when
    it is set, otherwise [C:\IBC] on Windows and [/opt/ibc] elsewhere; the
    other attributes are as configured and no process is held.  Its shell
    command therefore always carries the ibc-path argument with that
    path. *)
Theorem IBC_init_ibcPath :
  forall (a : IBC.Attrs) (g : world),
    let o := IBC.__init__ a g in
    let w32 := String.eqb (platform g) "win32" in
    truthy (IBC.ibcPath (attrs o)) = true
    /\ attrs o =
         (if truthy (IBC.ibcPath a) then a
          else IBC.set_ibcPath
                 (PyStr (if w32 then "C:\IBC" else "/opt/ibc")) a)
    /\ _proc o = None /\ _monitor o = None
    /\ In ((if w32 then "/IbcPath:" else "--ibc-path=")
           ++ str (IBC.ibcPath (attrs o)))%string
          (IBCCommand.table_tokens w32 (attrs o)).
Proof.
  intros a g o w32.
  assert (Ht : truthy (IBC.ibcPath (attrs o)) = true).
  { subst o. unfold IBC.__init__. cbn [attrs].
    destruct (truthy (IBC.ibcPath a)) eqn:E; cbn [negb]; [exact E|].
    cbn [IBC.set_ibcPath IBC.ibcPath].
    destruct (negb (String.eqb (platform g) "win32")); reflexivity. }
  split; [exact Ht|]. split.
  { subst o w32. unfold IBC.__init__. cbn [attrs].
    destruct (truthy (IBC.ibcPath a)); cbn [negb]; [reflexivity|].
    destruct (String.eqb (platform g) "win32"); reflexivity. }
  split; [reflexivity|]. split; [reflexivity|].
  rewrite table_tokens_unfold.
  do 5 (apply in_or_app; right). apply in_or_app. left.
  unfold IBCCommand.arg_tokens. rewrite Ht.
  destruct w32; cbn; left; reflexivity.
Qed.

(** ** The controllers as context managers *)

Lemma IBC_startAsync_fresh (o : IBC.IBC) g :
  _proc o = None ->
  IBC.startAsync o g
  = (Ok tt, running (next_pid g) (next_tid g) o,
     started IBC.logger
       (IBCCommand.command_line (String.eqb (platform g) "win32") (attrs o))
       (environ g) g).
Proof.
  intros Hp.
  unfold IBC.startAsync, bind, gets, log, effect, modw, win32, getw,
    raise, modify, create_subprocess_shell, ensure_future.
  rewrite Hp. cbn [is_set attrs platform emit].
  rewrite IBCCommandFacts.shell_command_command_line.
  unfold started, running. cbn. rewrite <- !app_assoc. reflexivity.
Qed.

Lemma terminated_exited lg pid tid g :
  In pid (exited (terminated lg pid tid g))
  /\ In tid (cancelled (terminated lg pid tid g)).
Proof.
  unfold terminated. cbn [exited cancelled]. split; [|left; reflexivity].
  destruct (existsb (Nat.eqb pid) (exited g)) eqn:E; [|left; reflexivity].
  apply existsb_exists in E. destruct E as (x & Hx & Ex).
  apply Nat.eqb_eq in Ex. subst x. exact Hx.
Qed.

(** X2. [IBC] as a context manager.  On a controller that holds no process,
    [__enter__] starts one and returns the controller itself with the
    handle and the monitor set.  Whatever the body of the [with] block has
    done to the world meanwhile, and whatever exception it reports,
    [__exit__] returns without raising, leaves the controller as it was
    before [__enter__], and afterwards the process has exited and the
    monitor task is cancelled. *)
Theorem IBC_with_block :
  forall (o : IBC.IBC) (g : world),
    _proc o = None -> _monitor o = None ->
    exists o1 g1,
      IBC.__enter__ o g = (Ok o1, o1, g1)
      /\ _proc o1 = Some (next_pid g)
      /\ _monitor o1 = Some (next_tid g)
      /\ In (next_pid g) (spawned (trace g1))
      /\ forall (g_body : world) (exc : option exn),
           exists g2,
             IBC.__exit__ exc o1 g_body = (Ok tt, o, g2)
             /\ In (next_pid g) (exited g2)
             /\ In (next_tid g) (cancelled g2).
Proof.
  intros o g Hp Hm.
  exists (running (next_pid g) (next_tid g) o). eexists.
  split.
  { unfold IBC.__enter__, IBC.start.
    rewrite (bind_ok _ _ _ _ (IBC_startAsync_fresh o g Hp)). reflexivity. }
  split; [reflexivity|]. split; [reflexivity|]. split.
  { unfold started. cbn [trace]. rewrite spawned_app. apply in_or_app.
    right. cbn. left. reflexivity. }
  intros g_body exc.
  exists (terminated IBC.logger (next_pid g) (next_tid g) g_body).
  split.
  - unfold IBC.__exit__, IBC.terminate, IBC.terminateAsync.
    rewrite (@terminateAsync_handle _ IBC.logger
               (running (next_pid g) (next_tid g) o) g_body (next_pid g)
               (next_tid g) eq_refl eq_refl).
    destruct o; cbn in *; subst; reflexivity.
  - apply terminated_exited.
Qed.

(** ** IBController: what startAsync does to the paths *)

Section IBControllerStart.

Context {lib : PyLib}.

Lemma expand_paths_dict app vrsn mode ini ibc_path tws_path log_path user pw
    java cfg :
  IBController.expand_paths
    (ibcontroller_dict app vrsn mode ini ibc_path tws_path log_path user pw
                       java cfg)
  = Ok (ibcontroller_dict app vrsn mode (expanduser ini)
          (expanduser ibc_path) (expanduser tws_path) (expanduser log_path)
          user pw (expanduser java)
          (if String.eqb (expanduser cfg) "" then expanduser tws_path
           else expanduser cfg)).
Proof.
  unfold IBController.expand_paths, ibcontroller_dict.
  destruct lib as [f c]. cbn [expanduser].
  vm_compute. destruct (f cfg); reflexivity.
Qed.

Lemma startAsync_of_dict :
  forall (o : IBController.IBController) (g : world)
         (app vrsn mode ini ibc_path tws_path log_path user pw java cfg
          : string),
    _proc o = None ->
    IBController.dict (attrs o)
    = Ok (ibcontroller_dict app vrsn mode ini ibc_path tws_path log_path
                            user pw java cfg) ->
    let d :=
      ibcontroller_dict app vrsn mode (expanduser ini)
        (expanduser ibc_path) (expanduser tws_path) (expanduser log_path)
        user pw (expanduser java)
        (if String.eqb (expanduser cfg) "" then expanduser tws_path
         else expanduser cfg) in
    let ext := if String.eqb (platform g) "win32" then "bat" else "sh" in
    IBController.startAsync o g
    = (Ok tt,
       mkObj (IBController.update d (attrs o)) (Some (next_pid g))
             (Some (next_tid g)),
       started IBController.logger
         (expanduser ibc_path ++ "/Scripts/DisplayBannerAndLaunch." ++ ext)
         (merge (environ g) d) g).
Proof.
  intros o g app vrsn mode ini ibc_path tws_path log_path user pw java cfg
    Hp Hd d ext.
  unfold IBController.startAsync, bind, gets, log, effect, modw.
  rewrite Hp. cbn [is_set attrs]. rewrite Hd. cbn [IBController.lift ret].
  rewrite expand_paths_dict. fold d. cbn [IBController.lift ret].
  unfold modify, win32, getw, create_subprocess_shell, ensure_future.
  cbn [platform emit set_attrs attrs].
  replace (IBController.getitem "IBC_PATH" d) with (Ok (expanduser ibc_path))
    by reflexivity.
  cbn [IBController.lift ret]. fold ext.
  unfold started. cbn. rewrite <- !app_assoc. reflexivity.
Qed.


(** X3. [IBController.startAsync] on a controller that holds no process
    and whose eleven attributes are set never raises.  It applies
    [expanduser] to exactly the attributes named [..._PATH] or [..._INI]
    (IBC_INI, IBC_PATH, TWS_PATH, LOG_PATH, JAVA_PATH, TWS_CONFIG_PATH) and
    leaves the other five as they are; an expanded TWS_CONFIG_PATH that is
    empty becomes the expanded TWS_PATH.  It writes these values back to
    the object, and spawns
    [<expanded IBC_PATH>/Scripts/DisplayBannerAndLaunch.sh] ([.bat] on
    Windows) in the environment [os.environ] updated with them. *)
Theorem IBController_startAsync_expands :
  forall (o : IBController.IBController) (g : world)
         (app vrsn mode ini ibc_path tws_path log_path user pw java cfg
          : string),
    _proc o = None ->
    IBController.dict (attrs o)
    = Ok (ibcontroller_dict app vrsn mode ini ibc_path tws_path log_path
                            user pw java cfg) ->
    let d :=
      ibcontroller_dict app vrsn mode (expanduser ini)
        (expanduser ibc_path) (expanduser tws_path) (expanduser log_path)
        user pw (expanduser java)
        (if String.eqb (expanduser cfg) "" then expanduser tws_path
         else expanduser cfg) in
    let ext := if String.eqb (platform g) "win32" then "bat" else "sh" in
    IBController.startAsync o g
    = (Ok tt,
       mkObj (IBController.update d (attrs o)) (Some (next_pid g))
             (Some (next_tid g)),
       started IBController.logger
         (expanduser ibc_path ++ "/Scripts/DisplayBannerAndLaunch." ++ ext)
         (merge (environ g) d) g).
Proof. exact startAsync_of_dict. Qed.

Lemma lookup_setitem_other {V} k k' (v : V) d :
  String.eqb k k' = false -> lookup k (setitem k' v d) = lookup k d.
Proof.
  intros Hne. induction d as [|[k0 v0] rest IH]; cbn.
  - rewrite Hne. reflexivity.
  - destruct (String.eqb k' k0) eqn:E; cbn.
    + apply String.eqb_eq in E. subst k0. rewrite Hne. reflexivity.
    + destruct (String.eqb k k0); [reflexivity|exact IH].
Qed.

Lemma lookup_None_notin {V} k (d : list (string * V)) :
  ~ In k (map fst d) -> lookup k d = None.
Proof.
  induction d as [|[k0 v0] rest IH]; cbn; intros H; [reflexivity|].
  destruct (String.eqb k k0) eqn:E.
  - apply String.eqb_eq in E. subst. tauto.
  - apply IH. tauto.
Qed.

(** [{**a, **b}] looked up: the value of [b] where [b] has the key, the
    value of [a] otherwise. *)
Lemma lookup_merge {V} (b : list (string * V)) :
  forall a k,
    NoDup (map fst b) ->
    lookup k (merge a b)
    = match lookup k b with Some v => Some v | None => lookup k a end.
Proof.
  unfold merge.
  induction b as [|[k' v'] rest IH]; intros a k Hnd; cbn; [reflexivity|].
  inversion Hnd as [|? ? Hnin Hnd']; subst.
  rewrite IH by exact Hnd'.
  destruct (String.eqb k k') eqn:E.
  - apply String.eqb_eq in E. subst k'.
    rewrite (lookup_None_notin _ _ Hnin). apply WatchdogFacts.lookup_setitem.
  - rewrite lookup_setitem_other by exact E. reflexivity.
Qed.

Lemma ibcontroller_dict_NoDup app vrsn mode ini ibc_path tws_path log_path
    user pw java cfg :
  NoDup (map fst (ibcontroller_dict app vrsn mode ini ibc_path tws_path
                                    log_path user pw java cfg)).
Proof.
  cbn. repeat constructor; cbn; intuition discriminate.
Qed.

Lemma dict_shape a d0 :
  IBController.dict a = Ok d0 ->
  exists app vrsn mode ini ibc_path tws_path log_path user pw java cfg,
    d0 = ibcontroller_dict app vrsn mode ini ibc_path tws_path log_path
                           user pw java cfg.
Proof.
  unfold IBController.dict, IBController.defaults.
  cbn [map fst IBController.dict_keys]. unfold IBController.getattr.
  repeat match goal with
         | |- context [lookup ?k a] => destruct (lookup k a)
         end; try discriminate.
  intros [= <-]. do 11 eexists. reflexivity.
Qed.

Lemma dict_update a app vrsn mode ini ibc_path tws_path log_path user pw
    java cfg :
  let d := ibcontroller_dict app vrsn mode ini ibc_path tws_path log_path
                             user pw java cfg in
  IBController.dict (IBController.update d a) = Ok d.
Proof.
  intros d.
  unfold IBController.dict, IBController.defaults, IBController.update.
  cbn [map fst IBController.dict_keys]. unfold IBController.getattr.
  rewrite !lookup_merge by apply ibcontroller_dict_NoDup.
  reflexivity.
Qed.

(** X4. When [IBController.startAsync] starts a process, the environment
    it gives the process is [os.environ] overridden by the attributes of
    the controller as they are after the call (paths expanded): a variable
    named like an attribute has the value of the attribute, every other
    variable is inherited.  The same values are what [dict()] of the
    controller returns from then on. *)
Theorem IBController_start_environment :
  forall (o o' : IBController.IBController) (g g' : world),
    _proc o = None ->
    IBController.startAsync o g = (Ok tt, o', g') ->
    exists cmd env d,
      trace g' =
        trace g ++ [ Log IBController.logger INFO "Starting";
                     Spawn (next_pid g) cmd env;
                     EnsureFuture (next_tid g) MonitorAsync ]
      /\ IBController.dict (attrs o') = Ok d
      /\ forall k,
           lookup k env
           = match lookup k d with
             | Some v => Some v
             | None => lookup k (environ g)
             end.
Proof.
  intros o o' g g' Hp Hstart.
  destruct (IBController.dict (attrs o)) as [d0|e] eqn:Hd.
  2:{ exfalso. revert Hstart.
      unfold IBController.startAsync, bind, gets, log, effect, modw.
      rewrite Hp. cbn [is_set attrs]. rewrite Hd. discriminate. }
  destruct (dict_shape _ Hd)
    as (app & vrsn & mode & ini & ibc_path & tws_path & log_path & user
        & pw & java & cfg & ->).
  rewrite (startAsync_of_dict o g Hp Hd) in Hstart.
  injection Hstart as <- <-.
  eexists.
  exists (merge (environ g)
            (ibcontroller_dict app vrsn mode (expanduser ini)
               (expanduser ibc_path) (expanduser tws_path)
               (expanduser log_path) user pw (expanduser java)
               (if String.eqb (expanduser cfg) "" then expanduser tws_path
                else expanduser cfg))).
  eexists. split; [reflexivity|]. split.
  - cbn [attrs]. apply dict_update.
  - intros k. apply lookup_merge. apply ibcontroller_dict_NoDup.
Qed.

(** X16. [IBController] as a context manager.  On a controller that holds
    no process, [__enter__] either raises, in which case no process has
    been started, or returns the controller itself, holding a newly
    started process and its monitor.  In the second case [__exit__],
    whatever the body of the [with] block has done to the world and
    whatever exception it reports, returns without raising, clears both
    slots, and afterwards the process has exited and the monitor task is
    cancelled. *)
Theorem IBController_with_block :
  forall (o : IBController.IBController) (g : world),
    _proc o = None ->
    match IBController.__enter__ o g with
    | (Raise _, o1, g1) =>
        _proc o1 = None /\ spawned (trace g1) = spawned (trace g)
    | (Ok r, o1, g1) =>
        r = o1
        /\ _proc o1 = Some (next_pid g)
        /\ _monitor o1 = Some (next_tid g)
        /\ In (next_pid g) (spawned (trace g1))
        /\ forall (g_body : world) (exc : option exn),
             exists g2,
               IBController.__exit__ exc o1 g_body
               = (Ok tt, mkObj (attrs o1) None None, g2)
               /\ In (next_pid g) (exited g2)
               /\ In (next_tid g) (cancelled g2)
    end.
Proof.
  intros o g Hp.
  unfold IBController.__enter__, IBController.start.
  destruct (IBController.dict (attrs o)) as [d0|e] eqn:Hd.
  - destruct (dict_shape _ Hd)
      as (app & vrsn & mode & ini & ibc_path & tws_path & log_path & user
          & pw & java & cfg & ->).
    rewrite (bind_ok _ _ _ _ (startAsync_of_dict o g Hp Hd)).
    cbn [gets]. split; [reflexivity|]. split; [reflexivity|].
    split; [reflexivity|]. split.
    { unfold started. cbn [trace]. rewrite spawned_app. apply in_or_app.
      right. cbn. left. reflexivity. }
    intros g_body exc.
    exists (terminated IBController.logger (next_pid g) (next_tid g) g_body).
    split; [|apply terminated_exited].
    unfold IBController.__exit__, IBController.terminate,
      IBController.terminateAsync.
    apply terminateAsync_handle; reflexivity.
  - unfold IBController.startAsync, bind, gets, log, effect, modw.
    rewrite Hp. cbn [is_set attrs]. rewrite Hd.
    cbn [IBController.lift raise]. split; [exact Hp|].
    cbn [emit trace]. rewrite spawned_app. cbn. apply app_nil_r.
Qed.

End IBControllerStart.

(** ** IBController: stopAsync and terminateAsync together *)

Section IBControllerStop.

Context {lib : PyLib}.

Lemma stopAsync_cases (o : IBController.IBController) g pid tid :
  _proc o = Some pid -> _monitor o = Some tid ->
  (exists e g',
      IBController.stopAsync o g = (Raise e, o, g')
      /\ (e = AttributeError \/ e = FileNotFoundError \/ e = ConfigError
          \/ e = ConnectionRefusedError)
      /\ exited g' = exited g /\ cancelled g' = cancelled g
      /\ forall x, In x (trace g') ->
                   In x (trace g) \/ (exists l m, x = Log l INFO m)
                   \/ (exists path, x = OpenRead path))
  \/ (exists g',
         IBController.stopAsync o g = (Ok tt, mkObj (attrs o) None None, g')
         /\ In pid (exited g') /\ In tid (cancelled g')).
Proof.
  intros Hp Hm.
  unfold IBController.stopAsync, IBController.stopAsync_during,
    IBController.suspended, bind, gets, log, effect, modw,
    IBController.getattr, open_read, open_connection, proc_wait, modify,
    task_cancel.
  rewrite Hp.
  destruct (lookup "IBC_INI" (attrs o)) as [ini|];
    cbn [IBController.lift ret raise files emit].
  2:{ left. do 2 eexists. split; [reflexivity|].
      split; [tauto|]. split; [reflexivity|]. split; [reflexivity|].
      cbn [trace]. intros x Hx. apply in_app_or in Hx.
      destruct Hx as [Hx|[<-|[]]]; [tauto|]. right. left. eauto. }
  destruct (lookup ini (files g)) as [content|].
  2:{ left. do 2 eexists. split; [reflexivity|].
      split; [tauto|]. split; [reflexivity|]. split; [reflexivity|].
      cbn [trace]. intros x Hx. apply in_app_or in Hx.
      destruct Hx as [Hx|[<-|[]]]; [tauto|]. right. left. eauto. }
  destruct (config_getint _ _ _) as [contrPort|];
    cbn [ret raise listening emit].
  2:{ left. do 2 eexists. split; [reflexivity|].
      split; [tauto|]. split; [reflexivity|]. split; [reflexivity|].
      cbn [trace]. intros x Hx. apply in_app_or in Hx.
      destruct Hx as [Hx|[<-|[]]]; [|right; right; eauto].
      apply in_app_or in Hx.
      destruct Hx as [Hx|[<-|[]]]; [tauto|]. right. left. eauto. }
  destruct (existsb (Z.eqb contrPort) (listening g)).
  2:{ left. do 2 eexists. split; [reflexivity|].
      split; [tauto|]. split; [reflexivity|]. split; [reflexivity|].
      cbn [trace]. intros x Hx. apply in_app_or in Hx.
      destruct Hx as [Hx|[<-|[]]]; [|right; right; eauto].
      apply in_app_or in Hx.
      destruct Hx as [Hx|[<-|[]]]; [tauto|]. right. left. eauto. }
  right. rewrite Hp.
  cbn [set_proc set_monitor attrs _proc _monitor]. rewrite Hm.
  eexists. split; [reflexivity|]. cbn. split; left; reflexivity.
Qed.


(** X6. Once [IBController.stopAsync] has returned normally, the controller
    holds no process and no monitor, and a further [stopAsync] or
    [terminateAsync] returns at once, leaving the controller and the world
    as they are: no file is read, no connection is opened, no signal is
    sent. *)
Theorem stopAsync_then_noop :
  forall (o o' : IBController.IBController) (g g' : world),
    slots_ok o ->
    IBController.stopAsync o g = (Ok tt, o', g') ->
    _proc o' = None /\ _monitor o' = None
    /\ IBController.stopAsync o' g' = (Ok tt, o', g')
    /\ IBController.terminateAsync o' g' = (Ok tt, o', g').
Proof.
  intros o o' g g' Hs Hstop.
  assert (Hnone : _proc o' = None /\ _monitor o' = None).
  { unfold slots_ok in Hs.
    destruct (_proc o) as [pid|] eqn:Hp;
      destruct (_monitor o) as [tid|] eqn:Hm; try discriminate.
    - destruct (stopAsync_cases o g Hp Hm)
        as [(e0 & g0 & E & _)|(g0 & E & _)];
        rewrite E in Hstop; [discriminate|].
      injection Hstop as <- <-. split; reflexivity.
    - revert Hstop.
      unfold IBController.stopAsync, IBController.stopAsync_during, bind,
        gets.
      rewrite Hp. intros [= <- <-]. split; assumption. }
  destruct Hnone as [Hp' Hm']. repeat split; try assumption.
  - unfold IBController.stopAsync, IBController.stopAsync_during, bind,
      gets.
    rewrite Hp'. reflexivity.
  - unfold IBController.terminateAsync.
    apply terminateAsync_no_handle. exact Hp'.
Qed.

End IBControllerStop.

(** ** Watchdog: start, stop and the restart cycle *)

Section WatchdogMore.

Context {lib : PyLib}.

Lemma controller_call_frame m1 m2 w g :
  match controller_call m1 m2 w g with
  | (_, w1, _) =>
      ib w1 = ib w /\ host w1 = host w /\ port w1 = port w
      /\ clientId w1 = clientId w /\ connectTimeout w1 = connectTimeout w
      /\ appStartupTime w1 = appStartupTime w
      /\ appTimeout w1 = appTimeout w /\ retryDelay w1 = retryDelay w
  end.
Proof.
  unfold controller_call.
  destruct (controller w) as [[c|c]|].
  - destruct (m1 c g) as [[r c'] g']. cbn. repeat split.
  - destruct (m2 c g) as [[r c'] g']. cbn. repeat split.
  - repeat split.
Qed.

Lemma bind_raise' {St A B} (m : M St A) (k : A -> M St B) s g e s' g' :
  m s g = (Raise e, s', g') -> bind m k s g = (Raise e, s', g').
Proof. intros H. unfold bind. rewrite H. reflexivity. Qed.

Lemma set_ib_same w i : ib w = Some i -> set_ib (Some i) w = w.
Proof. intros H. rewrite <- H. destruct w; reflexivity. Qed.

Lemma IBC_startAsync_slots_ok (o : IBC.IBC) g :
  slots_ok o ->
  match IBC.startAsync o g with (_, o', _) => slots_ok o' end.
Proof.
  intros H. destruct (is_set (_proc o)) eqn:Hp.
  - rewrite IBC_startAsync_running by assumption. exact H.
  - unfold IBC.startAsync, bind, gets, log, effect, modw, win32, getw,
      raise, modify, create_subprocess_shell, ensure_future.
    rewrite Hp. cbn [is_set attrs].
    destruct (IBC.shell_command _ _) as [cmd|e]; [reflexivity|exact H].
Qed.

Lemma IBController_startAsync_slots_ok (o : IBController.IBController) g :
  slots_ok o ->
  match IBController.startAsync o g with (_, o', _) => slots_ok o' end.
Proof.
  intros H. destruct (is_set (_proc o)) eqn:Hp.
  - rewrite IBController_startAsync_running by assumption. exact H.
  - unfold IBController.startAsync, bind, gets, log, effect, modw, win32,
      getw, modify, create_subprocess_shell, ensure_future.
    rewrite Hp. cbn [is_set attrs].
    destruct (IBController.dict (attrs o)) as [d0|e];
      cbn [IBController.lift ret raise]; [|exact H].
    destruct (IBController.expand_paths d0) as [d|e];
      cbn [IBController.lift ret raise]; [|exact H].
    destruct (IBController.getitem "IBC_PATH" d) as [ibc_path|e];
      cbn [IBController.lift ret raise]; [reflexivity|exact H].
Qed.

Lemma controller_start_constructed w g :
  constructed w ->
  match controller_call IBC.start IBController.start w g with
  | (_, w1, _) => constructed w1
  end.
Proof.
  intros ((c & Hc & Hok) & (i & Hi) & Ht & Hr).
  unfold controller_call. rewrite Hc.
  destruct c as [o|o]; cbn [ctrl_ok] in Hok.
  - pose proof (IBC_startAsync_slots_ok g Hok) as Hs. unfold IBC.start.
    destruct (IBC.startAsync o g) as [[r o'] g'].
    unfold constructed. cbn. rewrite Hi.
    split; [eexists; split; [reflexivity|exact Hs]|].
    split; [eexists; reflexivity|]. split; assumption.
  - pose proof (IBController_startAsync_slots_ok g Hok) as Hs.
    unfold IBController.start.
    destruct (IBController.startAsync o g) as [[r o'] g'].
    unfold constructed. cbn. rewrite Hi.
    split; [eexists; split; [reflexivity|exact Hs]|].
    split; [eexists; reflexivity|]. split; assumption.
Qed.

Lemma onApiError_run w g msg :
  constructed w ->
  onApiError msg w g
  = (Ok tt, stopped w, restart_scheduled w (stop_world w g)).
Proof.
  intros Hw. unfold onApiError.
  rewrite (bind_ok _ _ _ _ (WatchdogFacts.stop_constructed g Hw)).
  rewrite WatchdogFacts.scheduleRestart_run. reflexivity.
Qed.

(** [connect] on a client whose app accepts the connection. *)
Lemma ib_connect_up w g i h p cid t :
  ib w = Some i -> app_up g = true ->
  ib_connect h p cid t w g
  = (Ok tt, set_ib (Some (connected_to i)) w, emit (IBConnect h p cid t) g).
Proof.
  intros Hi Hup.
  cbv [ib_connect bind on_ib gets zoom effect modw getw modify].
  rewrite Hi. cbn [set_ib ib app_up emit]. rewrite Hup.
  cbn [set_ib ib]. destruct w; reflexivity.
Qed.

(** [connect] refused: the client calls the handler of the watchdog, which
    stops and schedules a restart, and then raises. *)
Lemma ib_connect_down w g h p cid t :
  constructed w -> watching w -> app_up g = false ->
  ib_connect h p cid t w g
  = (Raise ConnectionError, stopped w,
     restart_scheduled w (stop_world w (emit (IBConnect h p cid t) g))).
Proof.
  intros Hw Hwat Hup. pose proof Hw as (_ & (i & Hi) & _).
  unfold watching in Hwat. rewrite Hi in Hwat. injection Hwat as Hapi.
  unfold ib_connect.
  rewrite (bind_ok (on_ib (effect (IBConnect h p cid t))) _ w g
             (a := tt) (s' := w) (g' := emit (IBConnect h p cid t) g)).
  2:{ cbv [on_ib bind gets zoom effect modw]. rewrite Hi.
      rewrite (set_ib_same _ Hi). reflexivity. }
  cbv [bind getw]. cbn [app_up emit]. rewrite Hup.
  cbv [call_apiError gets bind]. rewrite Hi, Hapi.
  rewrite (onApiError_run _ _ Hw). reflexivity.
Qed.

Lemma start_run :
  forall (w : Watchdog) (g : world),
    constructed w -> watching w ->
    match controller_call IBC.start IBController.start w
            (emit (Log logger INFO "Starting") g) with
    | (Raise e, w1, g1) => start w g = (Raise e, w1, g1)
    | (Ok _, w1, g1) =>
        let evs :=
          [ IBSleep (appStartupTime w);
            IBConnect (host w) (port w) (clientId w) (connectTimeout w) ] in
        constructed w1
        /\ if app_up g1 then
             start w g
             = (Ok tt,
                set_ib (option_map (connected_armed (appTimeout w)) (ib w))
                       w1,
                emits (evs ++ [IBSetTimeout (appTimeout w)]) g1)
           else
             start w g
             = (Ok tt, stopped w1,
                restart_scheduled w (stop_world w1 (emits evs g1)))
    end.
Proof.
  intros w g Hw Hwat. pose proof Hw as (_ & (i & Hi) & _).
  pose proof (controller_call_frame IBC.start IBController.start w
                (emit (Log logger INFO "Starting") g)) as Hf.
  pose proof (controller_start_constructed
                (emit (Log logger INFO "Starting") g) Hw) as Hc1.
  set (rest :=
         (t <- gets appStartupTime ;;
          effect (IBSleep t) ;;
          try_except
            (h <- gets host ;;
             p <- gets port ;;
             cid <- gets clientId ;;
             ct <- gets connectTimeout ;;
             ib_connect h p cid ct ;;
             at_ <- gets appTimeout ;;
             on_ib (ib_setTimeout at_))
            (ret tt)) : M Watchdog unit).
  assert (Hstart :
            start w g
            = (controller_call IBC.start IBController.start ;; rest) w
                (emit (Log logger INFO "Starting") g)) by reflexivity.
  destruct (controller_call IBC.start IBController.start w _)
    as [[[[]|e] w1] g1] eqn:E.
  2:{ rewrite Hstart. apply bind_raise'. exact E. }
  destruct Hf as (Hib & Hh & Hp & Hc & Hct & Hst & Hat & Hr).
  rewrite Hi in Hib.
  assert (Hwat1 : watching w1) by (unfold watching in *; rewrite Hib, <- Hi; exact Hwat).
  split; [exact Hc1|].
  rewrite Hstart, (bind_ok _ _ _ _ E). subst rest.
  cbv [bind gets effect modw try_except].
  rewrite Hh, Hp, Hc, Hct, Hst.
  destruct (app_up g1) eqn:Eup.
  - rewrite ib_connect_up with (i := i);
      [|exact Hib|cbn [app_up emit]; exact Eup].
    cbv [on_ib bind gets zoom ib_setTimeout effect modw modify emits
         fold_left app].
    cbn [set_ib ib appTimeout]. rewrite Hi, Hat. cbn [option_map connected_armed connected_to
      apiError callbacks connected idle_timeout].
    destruct w1; reflexivity.
  - rewrite ib_connect_down;
      [|exact Hc1|exact Hwat1|cbn [app_up emit]; exact Eup].
    unfold ret. unfold restart_scheduled. rewrite Hr. reflexivity.
Qed.


(** X8. [onApiError] on a constructed watchdog, whatever the message:
    it performs [stop()] and then [scheduleRestart()] without raising, so
    that one more call of [start] is pending on the loop, [retryDelay]
    seconds away; the effects are those of [stop()] followed by the log
    line and the [call_later]. *)
Theorem onApiError_stops_and_schedules :
  forall (w : Watchdog) (g : world) (msg : string),
    constructed w ->
    exists g',
      onApiError msg w g = (Ok tt, stopped w, g')
      /\ trace g' =
           trace g ++ stop_events w g
           ++ [ Log logger INFO
                    ("Schedule restart in "
                     ++ str (PyInt (retryDelay w)) ++ "s");
                CallLater (retryDelay w) CbStart ]
      /\ timers g' = timers g ++ [(retryDelay w, CbStart)]
      /\ constructed (stopped w).
Proof.
  intros w g msg Hw. eexists. split; [apply onApiError_run; exact Hw|].
  split; [|split].
  - cbn [restart_scheduled trace]. rewrite WatchdogFacts.stop_world_trace.
    rewrite <- app_assoc. reflexivity.
  - cbn [restart_scheduled timers].
    rewrite WatchdogFacts.stop_world_timers. reflexivity.
  - apply WatchdogFacts.stopped_constructed. exact Hw.
Qed.

Lemma stopped_idem w : constructed w -> stopped (stopped w) = stopped w.
Proof.
  intros ((c & Hc & _) & (i & Hi) & _).
  unfold stopped. cbn. rewrite Hc, Hi. cbn.
  destruct c; reflexivity.
Qed.

Lemma stop_world_stopped w g1 :
  constructed w ->
  stop_world (stopped w) g1
  = emit IBDisconnect (emit (Log logger INFO "Stopping") g1).
Proof.
  intros ((c & Hc & _) & _).
  unfold stop_world, stopped. cbn [controller set_controller].
  rewrite Hc. destruct c; reflexivity.
Qed.

(** X9. A second [stop()] right after a [stop()] leaves the watchdog as
    the first one left it, and does nothing but log and call
    [disconnect()] on the client: the controller holds no process any
    more, so no signal is sent, no process awaited and no task
    cancelled. *)
Theorem stop_twice :
  forall (w : Watchdog) (g : world),
    constructed w ->
    exists g1 g2,
      stop w g = (Ok tt, stopped w, g1)
      /\ stop (stopped w) g1 = (Ok tt, stopped w, g2)
      /\ trace g2 = trace g1 ++ [Log logger INFO "Stopping"; IBDisconnect]
      /\ exited g2 = exited g1
      /\ cancelled g2 = cancelled g1
      /\ timers g2 = timers g1.
Proof.
  intros w g Hw.
  exists (stop_world w g), (stop_world (stopped w) (stop_world w g)).
  split; [apply WatchdogFacts.stop_constructed; exact Hw|].
  split.
  { rewrite (WatchdogFacts.stop_constructed (stop_world w g)
               (WatchdogFacts.stopped_constructed Hw)).
    rewrite (stopped_idem Hw). reflexivity. }
  rewrite (stop_world_stopped _ Hw). cbn. rewrite <- app_assoc.
  repeat split.
Qed.

Lemma emits_eq evs g :
  emits evs g
  = mkWorld (trace g ++ evs) (next_pid g) (exited g) (next_tid g) (tasks g)
            (cancelled g) (timers g) (platform g) (environ g) (files g)
            (listening g) (app_up g).
Proof.
  revert g. induction evs as [|e evs IH]; intros g.
  - cbn. rewrite app_nil_r. destruct g; reflexivity.
  - change (emits (e :: evs) g) with (emits evs (emit e g)).
    rewrite IH. cbn. rewrite <- app_assoc. reflexivity.
Qed.

Lemma terminate_world_frame A lg (o : obj A) g :
  next_pid (terminate_world lg o g) = next_pid g
  /\ next_tid (terminate_world lg o g) = next_tid g
  /\ app_up (terminate_world lg o g) = app_up g
  /\ (forall pid, _proc o = Some pid -> _monitor o <> None ->
                  In pid (exited (terminate_world lg o g))).
Proof.
  unfold terminate_world.
  destruct (_proc o) as [pid|], (_monitor o) as [tid|]; cbn;
    repeat split; try discriminate; try tauto.
  intros p [= <-] _. apply (terminated_exited lg pid tid g).
Qed.

Lemma fire_timer_pending w g d cb rest :
  timers g = (d, cb) :: rest ->
  fire_timer w g = start w (with_timers rest g).
Proof.
  intros H. unfold fire_timer. rewrite H. destruct cb. reflexivity.
Qed.

Lemma controller_call_IBC_fresh w g c :
  controller w = Some (CtlIBC c) -> _proc c = None ->
  controller_call IBC.start IBController.start w g
  = (Ok tt,
     set_controller
       (Some (CtlIBC (running (next_pid g) (next_tid g) c))) w,
     started IBC.logger
       (IBCCommand.command_line (String.eqb (platform g) "win32") (attrs c))
       (environ g) g).
Proof.
  intros Hc Hp. unfold controller_call. rewrite Hc.
  unfold IBC.start. rewrite (IBC_startAsync_fresh c g Hp). reflexivity.
Qed.

Lemma stopped_watching w : constructed w -> watching w -> watching (stopped w).
Proof.
  intros (_ & (i & Hi) & _). unfold watching, stopped. cbn. rewrite Hi.
  cbn. tauto.
Qed.

Lemma terminated_exited_mono lg pid tid g p :
  In p (exited g) -> In p (exited (terminated lg pid tid g)).
Proof.
  unfold terminated. cbn [exited].
  destruct (existsb _ _); [tauto|]. intros H. right. exact H.
Qed.

(** X10. The restart cycle, for a watchdog over an IBC whose client reports
    to it.  After error 1100 and the firing of a pending timer, [start()]
    has run again without raising: the process the controller held has
    exited and a new one has been started.  When the app accepts the
    connection, the controller holds the new process and its monitor, the
    client is connected with the idle timeout armed with [appTimeout], and
    as many timers are pending as before the error.  When the app refuses
    it, the client has called the api-error handler: the new process has
    been terminated as well, the controller holds none, the client is
    disconnected with its idle timeout as it was, and one more timer is
    pending than before the error, the last one a [start] that is
    [retryDelay] away. *)
Theorem restart_cycle :
  forall (w : Watchdog) (g : world) (o : IBC.IBC) (reqId : Z)
         (errorString : string) (contract : option string),
    constructed w -> watching w ->
    controller w = Some (CtlIBC o) ->
    exists w2 g2,
      (onError reqId 1100 errorString contract ;; fire_timer) w g
      = (Ok tt, w2, g2)
      /\ In (next_pid g) (spawned (trace g2))
      /\ (forall pid, _proc o = Some pid -> In pid (exited g2))
      /\ option_map connected (ib w2) = Some (app_up g)
      /\ (app_up g = true ->
          controller w2
          = Some (CtlIBC (running (next_pid g) (next_tid g) o))
          /\ List.length (timers g2) = List.length (timers g)
          /\ option_map idle_timeout (ib w2) = Some (Some (appTimeout w)))
      /\ (app_up g = false ->
          controller w2 = Some (CtlIBC (cleared o))
          /\ In (next_pid g) (exited g2)
          /\ List.length (timers g2) = Datatypes.S (List.length (timers g))
          /\ last (timers g2) (0, CbStart) = (retryDelay w, CbStart)
          /\ option_map idle_timeout (ib w2)
             = option_map idle_timeout (ib w)).
Proof.
  intros w g o reqId errorString contract Hw Hwat Hc.
  pose proof Hw as ((c0 & Hc0 & Hok) & (i & Hi) & _).
  rewrite Hc in Hc0. injection Hc0 as <-. cbn [ctrl_ok] in Hok.
  set (g0 := emit (Log logger INFO ("Error 1100: " ++ errorString)) g).
  set (g1 := restart_scheduled w (stop_world w g0)).
  rewrite (bind_ok _ _ _ _
             (WatchdogFacts.onError_fatal g reqId errorString contract Hw)).
  fold g0. fold g1.
  assert (Ht1 : timers g1 = timers g ++ [(retryDelay w, CbStart)]).
  { subst g1. cbn [restart_scheduled timers].
    rewrite WatchdogFacts.stop_world_timers. reflexivity. }
  assert (Hsw : stop_world w g0
                = terminate_world IBC.logger o
                    (emit IBDisconnect (emit (Log logger INFO "Stopping") g0))).
  { unfold stop_world. rewrite Hc. reflexivity. }
  destruct (terminate_world_frame IBC.logger o
              (emit IBDisconnect (emit (Log logger INFO "Stopping") g0)))
    as (Hnp & Hnt & Hup & Hex).
  rewrite <- Hsw in Hnp, Hnt, Hup, Hex.
  assert (Hfire : exists rest,
             fire_timer (stopped w) g1
             = start (stopped w) (with_timers rest g1)
             /\ List.length rest = List.length (timers g)).
  { destruct (timers g) as [|[d cb] rest] eqn:Et.
    - exists []. split; [|reflexivity].
      apply fire_timer_pending with (d := retryDelay w) (cb := CbStart).
      exact Ht1.
    - exists (rest ++ [(retryDelay w, CbStart)]). split.
      + apply fire_timer_pending with (d := d) (cb := cb). exact Ht1.
      + rewrite length_app. cbn. lia. }
  destruct Hfire as (rest & Hfire & Hlen). rewrite Hfire.
  assert (Hup' : app_up (with_timers rest g1) = app_up g).
  { subst g1. cbn [with_timers restart_scheduled app_up]. exact Hup. }
  assert (Hnp' : next_pid (with_timers rest g1) = next_pid g).
  { subst g1. cbn [with_timers restart_scheduled next_pid]. exact Hnp. }
  assert (Hnt' : next_tid (with_timers rest g1) = next_tid g).
  { subst g1. cbn [with_timers restart_scheduled next_tid]. exact Hnt. }
  assert (Hex' : forall pid, _proc o = Some pid ->
                             In pid (exited (with_timers rest g1))).
  { intros pid Hpid. subst g1. cbn [with_timers restart_scheduled exited].
    apply Hex; [exact Hpid|].
    unfold slots_ok in Hok. rewrite Hpid in Hok.
    destruct (_monitor o); discriminate. }
  assert (Htm : timers (with_timers rest g1) = rest) by reflexivity.
  remember (with_timers rest g1) as gT eqn:EgT.
  assert (Hib : ib (stopped w) = Some (disconnected i)).
  { unfold stopped. cbn. rewrite Hi. reflexivity. }
  assert (Hcs : controller (stopped w) = Some (CtlIBC (cleared o))).
  { unfold stopped. cbn. rewrite Hc. reflexivity. }
  pose proof (start_run gT (WatchdogFacts.stopped_constructed Hw)
                (stopped_watching Hw Hwat)) as Hs.
  rewrite controller_call_IBC_fresh with (c := cleared o) in Hs
    by (exact Hcs || reflexivity).
  cbv zeta in Hs. destruct Hs as [Hc1 Hs].
  change (app_up (started IBC.logger
                    (IBCCommand.command_line
                       (String.eqb
                          (platform (emit (Log logger INFO "Starting") gT))
                          "win32") (attrs (cleared o)))
                    (environ (emit (Log logger INFO "Starting") gT))
                    (emit (Log logger INFO "Starting") gT)))
    with (app_up gT) in Hs.
  rewrite Hup' in Hs.
  destruct (app_up g) eqn:Eup.
  - cbn [started emit app_up next_pid next_tid] in Hs.
    rewrite Hnp', Hnt' in Hs. rewrite !emits_eq in Hs.
    do 2 eexists. split; [exact Hs|].
    cbn [controller set_ib set_controller ib option_map trace exited timers
         started emit connected idle_timeout connected_armed disconnected].
    rewrite ?Hib, ?Hi, ?Htm;
    cbn [option_map connected idle_timeout connected_armed disconnected].
    split;
      [rewrite !spawned_app; apply in_or_app; left; apply in_or_app; right;
       cbn; left; exact Hnp'|].
    split; [exact Hex'|].
    split; [reflexivity|].
    split; [|discriminate].
    intros _. split; [cbn [running cleared attrs]; reflexivity|].
    split; [exact Hlen|reflexivity].
  - set (w1 := set_controller
                 (Some (CtlIBC (running
                                  (next_pid (emit (Log logger INFO "Starting") gT))
                                  (next_tid (emit (Log logger INFO "Starting") gT))
                                  (cleared o))))
                 (stopped w)) in *.
    set (G1 := started IBC.logger _ _ (emit (Log logger INFO "Starting") gT))
      in *.
    set (evs := [IBSleep (appStartupTime (stopped w));
                 IBConnect (host (stopped w)) (port (stopped w))
                           (clientId (stopped w))
                           (connectTimeout (stopped w))]) in *.
    assert (Hsw1 : stop_world w1 (emits evs G1)
                   = terminated IBC.logger (next_pid g) (next_tid g)
                       (emit IBDisconnect
                          (emit (Log logger INFO "Stopping")
                                (emits evs G1)))).
    { unfold stop_world, w1, terminate_world.
      cbn [controller set_controller running _proc _monitor next_pid
           next_tid emit].
      rewrite Hnp', Hnt'. reflexivity. }
    assert (HexG : exited (emits evs G1) = exited gT).
    { rewrite emits_eq. reflexivity. }
    assert (HtmG : timers (emits evs G1) = rest).
    { rewrite WatchdogFacts.timers_emits. exact Htm. }
    do 2 eexists. split; [exact Hs|].
    split.
    { cbn [restart_scheduled trace].
      rewrite WatchdogFacts.stop_world_trace, WatchdogFacts.trace_emits.
      rewrite !spawned_app. apply in_or_app; left.
      apply in_or_app; left. apply in_or_app; left.
      unfold G1. cbn [started trace emit]. rewrite !spawned_app.
      apply in_or_app; right. cbn. left. exact Hnp'. }
    split.
    { intros pid Hpid. cbn [restart_scheduled exited]. rewrite Hsw1.
      apply terminated_exited_mono. cbn [exited emit]. rewrite HexG.
      apply Hex'. exact Hpid. }
    split.
    { unfold stopped, w1. cbn. rewrite Hi. reflexivity. }
    split; [discriminate|]. intros _.
    split; [reflexivity|].
    split.
    { cbn [restart_scheduled exited]. rewrite Hsw1.
      apply terminated_exited. }
    split.
    { cbn [restart_scheduled timers].
      rewrite WatchdogFacts.stop_world_timers, HtmG, length_app, Hlen.
      cbn. lia. }
    split.
    { cbn [restart_scheduled timers].
      rewrite WatchdogFacts.stop_world_timers, HtmG. apply last_last. }
    unfold stopped, w1. cbn. rewrite Hi. reflexivity.
Qed.

(** X11. Constructing a Watchdog returns one exactly when a controller is
    given, [0 < appTimeout < 60] and [retryDelay > 0]; in every other case
    it raises [AssertionError] and nothing has happened: no IB client was
    made and no task was put on the loop. *)
Theorem construction_succeeds_iff :
  forall (args : Watchdog) (g : world),
    ((exists w g', new args g = (Ok w, g'))
     <-> (controller args <> None /\ 0 < appTimeout args < 60
          /\ retryDelay args > 0))
    /\ ((forall w g', new args g <> (Ok w, g')) ->
        new args g = (Raise AssertionError, g)).
Proof.
  intros args g.
  unfold new.
  cbv [__init__ bind gets assert raise ret].
  destruct (controller args) as [c|]; cbn [is_set].
  2:{ split; [split|reflexivity].
      - intros (w & g' & H). discriminate.
      - intros (H & _). contradiction. }
  destruct ((0 <? appTimeout args) && (appTimeout args <? 60)) eqn:Et.
  2:{ split; [split|reflexivity].
      - intros (w & g' & H). discriminate.
      - intros (_ & H & _). exfalso.
        apply andb_false_iff in Et. destruct Et as [E|E];
          apply Z.ltb_ge in E; lia. }
  apply andb_true_iff in Et. destruct Et as [E1 E2].
  apply Z.ltb_lt in E1. apply Z.ltb_lt in E2.
  destruct (retryDelay args >? 0) eqn:Er.
  2:{ split; [split|reflexivity].
      - intros (w & g' & H). discriminate.
      - intros (_ & _ & H). exfalso.
        pose proof (Zgt_cases (retryDelay args) 0) as Hc.
        rewrite Er in Hc. lia. }
  apply Z.gtb_lt in Er.
  cbv [new_IB effect modw modify on_ib gets bind zoom ib_set_apiError
       ib_setCallback ensure_future raise ret].
  destruct (ib args) as [i|] eqn:Ei; cbn [is_set set_ib ib]; rewrite ?Ei.
  - split; [split|].
    + intros _. repeat split; try discriminate; lia.
    + intros _. do 2 eexists. reflexivity.
    + intros H. exfalso. eapply H. reflexivity.
  - split; [split|].
    + intros _. repeat split; try discriminate; lia.
    + intros _. do 2 eexists. reflexivity.
    + intros H. exfalso. eapply H. reflexivity.
Qed.





End WatchdogMore.

(** ** The output monitor on lines of text *)

Section MonitorMore.

Variable A : Type.
Variable lg : string.
Variable lvl : level.

Lemma decode_text line :
  decode (strip line) <> None ->
  decode (strip line) = Some (text_of_bytes (strip line)).
Proof.
  unfold decode. destruct (utf8_valid _ _); [reflexivity|contradiction].
Qed.

Lemma interfered_quiet (reads : list (bytes * (obj A -> obj A))) :
  forall self,
    (forall r, In r reads -> forall o, snd r o = o) ->
    interfered reads self = self.
Proof.
  induction reads as [|r rest IH]; intros self H; cbn; [reflexivity|].
  rewrite (H r (or_introl eq_refl)). apply IH.
  intros r' Hin. apply H. right. exact Hin.
Qed.

Lemma monitor_frame_gen : monitor_frame (@monitorAsync A lg lvl) lg lvl.
Proof.
  intros reads. induction reads as [|[line others] rest IH]; intros self g.
  - cbn. destruct (_proc self);
      (split; [exists 0%nat; split; [lia|reflexivity]|];
       split; [exists []; reflexivity|intros _; reflexivity]).
  - cbn [monitorAsync]. destruct (_proc self).
    2:{ split; [exists 0%nat; split; [cbn; lia|reflexivity]|].
        split; [exists []; reflexivity|intros _; reflexivity]. }
    destruct line as [|b line].
    { split; [exists 1%nat; split; [cbn; lia|reflexivity]|].
      split; [exists []; reflexivity|].
      intros H. apply (H _ (or_introl eq_refl)). }
    destruct (decode (strip (b :: line))) as [text|].
    2:{ split; [exists 1%nat; split; [cbn; lia|reflexivity]|].
        split; [exists []; reflexivity|].
        intros H. apply (H _ (or_introl eq_refl)). }
    specialize (IH (others self) (emit (Log lg lvl text) g)).
    destruct (monitorAsync lg lvl rest (others self) _) as [[st self'] g'].
    destruct IH as ((k & Hk & Ek) & (msgs & Hm) & Hq).
    split; [exists (Datatypes.S k); split; [cbn; lia|exact Ek]|].
    split; [exists (text :: msgs); exact Hm|].
    intros H. rewrite Hq.
    + apply (H _ (or_introl eq_refl)).
    + intros r Hin. apply H. right. exact Hin.
Qed.

Lemma monitor_contract_gen : monitor_contract (@monitorAsync A lg lvl) lg lvl.
Proof.
  intros lines. induction lines as [|l lines IH]; intros self g Hp Hl logged.
  - subst logged. cbn [map app monitorAsync emits fold_left quiet].
    destruct (_proc self) eqn:E; [|contradiction].
    split; [reflexivity|]. split; [reflexivity|].
    intros line rest [Hne Hdec].
    destruct line as [|b line]; [contradiction|].
    rewrite (decode_text _ Hdec). unfold clears_handle.
    destruct rest; reflexivity.
  - destruct (Hl l (or_introl eq_refl)) as [Hne Hdec].
    assert (Hl' : forall line, In line lines -> text_line line)
      by (intros x Hin; apply Hl; right; exact Hin).
    subst logged. cbn [map app monitorAsync quiet].
    destruct (_proc self) eqn:E; [|contradiction].
    destruct l as [|b l]; [contradiction|].
    rewrite (decode_text _ Hdec).
    assert (Hp' : _proc self <> None) by (rewrite E; discriminate).
    destruct (IH self (emit (Log lg lvl (text_of_bytes (strip (b :: l)))) g)
                 Hp' Hl') as (H1 & H2 & H3).
    split; [exact H1|]. split; [exact H2|exact H3].
Qed.

End MonitorMore.

(** X13. What the output monitors never do.  Whatever the reads bring and
    whatever the other tasks do meanwhile, [monitorAsync] of IBC and of
    IBController assigns to no attribute of the controller (the object it
    leaves is the one it was given, changed only by the other tasks during
    the reads the loop made, and unchanged when they did nothing), never
    makes more reads than there are lines, and its only effect on the
    world is to log, with the logger of its class and at its level:
    [DEBUG] for IBC, [INFO] for IBController. *)
Theorem monitorAsync_only_logs :
  monitor_frame IBC.monitorAsync IBC.logger DEBUG
  /\ monitor_frame IBController.monitorAsync IBController.logger INFO.
Proof. split; apply monitor_frame_gen. Qed.

(** X14. The output monitors on text.  While the handle is set and the
    lines read are UTF-8, [monitorAsync] of IBC and of IBController logs
    each line once, in order, stripped of the whitespace around it, and
    waits for the next line.  At the end of the stream it returns without
    raising and reads no further.  When another task clears the handle
    while a line is being read, that line is still logged, and the loop
    then returns without reading further. *)
Theorem monitorAsync_forwards_text :
  monitor_contract IBC.monitorAsync IBC.logger DEBUG
  /\ monitor_contract IBController.monitorAsync IBController.logger INFO.
Proof. split; apply monitor_contract_gen. Qed.

(** ** The command line is not quoted *)

Lemma sapp_assoc (a b c : string) :
  ((a ++ b) ++ c = a ++ (b ++ c))%string.
Proof.
  induction a as [|ch a IH]; cbn; [reflexivity|]. rewrite IH. reflexivity.
Qed.

Lemma join_cons sep x y rest :
  join sep (x :: y :: rest) = (x ++ sep ++ join sep (y :: rest))%string.
Proof. reflexivity. Qed.

Lemma join_glue (l1 : list string) :
  forall x y l2,
    join " " (l1 ++ (x ++ " " ++ y)%string :: l2)
    = join " " (l1 ++ x :: y :: l2).
Proof.
  induction l1 as [|a l1 IH]; intros x y l2.
  - cbn [app]. destruct l2 as [|z l2].
    + reflexivity.
    + rewrite !join_cons. rewrite !sapp_assoc. reflexivity.
  - cbn [app].
    destruct l1 as [|b l1].
    + cbn [app]. rewrite !join_cons. f_equal. f_equal.
      apply (IH x y l2).
    + cbn [app]. rewrite !join_cons. f_equal. f_equal.
      apply (IH x y l2).
Qed.

Lemma truthy_app u x : u <> "" -> truthy (PyStr (u ++ x)) = true.
Proof. destruct u; [contradiction|reflexivity]. Qed.

Lemma truthy_str u : u <> "" -> truthy (PyStr u) = true.
Proof. destruct u; [contradiction|reflexivity]. Qed.

(** X15. The command line of IBC is not quoted.  For every configuration,
    a user id that contains a space followed by the password flag and a
    password gives, character for character, the same shell command as
    that user id and that password configured separately: values go into
    the command as they are, and the shell cannot tell the two apart. *)
Theorem IBC_command_not_quoted :
  forall (a : IBC.Attrs) (w32 : bool) (u p : string),
    u <> "" -> p <> "" ->
    let pw_flag := if w32 then "/PW:" else "--pw=" in
    IBC.shell_command w32
      (with_credentials (PyStr (u ++ " " ++ pw_flag ++ p)) PyNone a)
    = IBC.shell_command w32 (with_credentials (PyStr u) (PyStr p) a).
Proof.
  intros a w32 u p Hu Hp pw_flag.
  rewrite !IBCCommandFacts.shell_command_command_line.
  unfold IBCCommand.command_line. rewrite !table_tokens_unfold.
  cbn [with_credentials IBC.twsVersion IBC.gateway IBC.tradingMode
       IBC.twsPath IBC.twsSettingsPath IBC.ibcPath IBC.ibcIni IBC.javaPath
       IBC.userid IBC.password IBC.fixuserid IBC.fixpassword].
  change (IBCCommand.script w32
            (with_credentials (PyStr (u ++ " " ++ pw_flag ++ p)) PyNone a))
    with (IBCCommand.script w32 a).
  change (IBCCommand.script w32 (with_credentials (PyStr u) (PyStr p) a))
    with (IBCCommand.script w32 a).
  set (t1 := IBCCommand.arg_tokens _ (IBC.twsVersion a)).
  set (t2 := IBCCommand.arg_tokens _ (IBC.gateway a)).
  set (t3 := IBCCommand.arg_tokens _ (IBC.tradingMode a)).
  set (t4 := IBCCommand.arg_tokens _ (IBC.twsPath a)).
  set (t5 := IBCCommand.arg_tokens _ (IBC.twsSettingsPath a)).
  set (t6 := IBCCommand.arg_tokens _ (IBC.ibcPath a)).
  set (t7 := IBCCommand.arg_tokens _ (IBC.ibcIni a)).
  set (t8 := IBCCommand.arg_tokens _ (IBC.javaPath a)).
  set (t11 := IBCCommand.arg_tokens _ (IBC.fixuserid a)).
  set (t12 := IBCCommand.arg_tokens _ (IBC.fixpassword a)).
  unfold IBCCommand.arg_tokens.
  rewrite (truthy_app _ Hu), (truthy_str Hu), (truthy_str Hp).
  cbn [truthy].
  subst pw_flag.
  set (s0 := IBCCommand.script w32 a).
  set (pre := t1 ++ t2 ++ t3 ++ t4 ++ t5 ++ t6 ++ t7 ++ t8).
  assert (Hglue : forall fu fp : string,
             join " " (s0 :: t1 ++ t2 ++ t3 ++ t4 ++ t5 ++ t6 ++ t7 ++ t8
                          ++ [(fu ++ u ++ " " ++ fp ++ p)%string] ++ []
                          ++ t11 ++ t12)
             = join " " (s0 :: t1 ++ t2 ++ t3 ++ t4 ++ t5 ++ t6 ++ t7 ++ t8
                            ++ [(fu ++ u)%string] ++ [(fp ++ p)%string]
                            ++ t11 ++ t12)).
  { intros fu fp.
    replace (s0 :: t1 ++ t2 ++ t3 ++ t4 ++ t5 ++ t6 ++ t7 ++ t8
                ++ [(fu ++ u ++ " " ++ fp ++ p)%string] ++ [] ++ t11 ++ t12)
      with ((s0 :: pre)
            ++ ((fu ++ u) ++ " " ++ (fp ++ p))%string :: t11 ++ t12).
    2:{ subst pre. rewrite sapp_assoc. cbn [app].
        rewrite <- !app_assoc. reflexivity. }
    replace (s0 :: t1 ++ t2 ++ t3 ++ t4 ++ t5 ++ t6 ++ t7 ++ t8
                ++ [(fu ++ u)%string] ++ [(fp ++ p)%string] ++ t11 ++ t12)
      with ((s0 :: pre) ++ (fu ++ u)%string :: (fp ++ p)%string :: t11 ++ t12).
    2:{ subst pre. cbn [app]. rewrite <- !app_assoc. reflexivity. }
    apply join_glue. }
  destruct w32; f_equal.
  - exact (Hglue "/User:" "/PW:").
  - exact (Hglue "--user=" "--pw=").
Qed.

End MoreFacts.

(* ================================================================== *)
(** * The example, through the further properties *)

Module MoreExample.
Import Watchdog WatchdogSpec More.

(** Entering and leaving a [with] block on the IBC of the example. *)
Lemma IBC_with_block_witness :
  exists o1 g1,
    IBC.__enter__ Example.ibc0 Example.world0 = (Ok o1, o1, g1)
    /\ _proc o1 = Some 0%nat
    /\ exists g2,
         IBC.__exit__ (Some Exception) o1 g1 = (Ok tt, Example.ibc0, g2)
         /\ In 0%nat (exited g2).
Proof.
  destruct (@MoreFacts.IBC_with_block Example.ibc0 Example.world0
              eq_refl eq_refl) as (o1 & g1 & E & P & _ & _ & Hexit).
  exists o1, g1. split; [exact E|]. split; [exact P|].
  destruct (Hexit g1 (Some Exception)) as (g2 & E2 & Hin & _).
  exists g2. split; [exact E2|exact Hin].
Defined.

(** Starting the default IBController: the paths are expanded. *)
Lemma IBController_startAsync_expands_witness :
  IBController.startAsync (lib := Example.pylib)
    (IBController.__init__ []) Example.world0
  = (Ok tt, Example.ibcontroller1, Example.world2).
Proof.
  exact (@MoreFacts.IBController_startAsync_expands Example.pylib
           (IBController.__init__ []) Example.world0
           "TWS" "969" "live" "~/IBController/IBController.ini"
           "~/IBController" "~/Jts" "~/IBController/Logs" "" "" "" ""
           eq_refl eq_refl).
Defined.

Lemma IBController_start_environment_witness :
  exists cmd env d,
    trace Example.world2 =
      trace Example.world0
      ++ [ Log IBController.logger INFO "Starting";
           Spawn (next_pid Example.world0) cmd env;
           EnsureFuture (next_tid Example.world0) MonitorAsync ]
    /\ IBController.dict (attrs Example.ibcontroller1) = Ok d
    /\ forall k,
         lookup k env
         = match lookup k d with
           | Some v => Some v
           | None => lookup k (environ Example.world0)
           end.
Proof.
  exact (@MoreFacts.IBController_start_environment Example.pylib
           (IBController.__init__ []) Example.ibcontroller1
           Example.world0 Example.world2 eq_refl eq_refl).
Defined.


Lemma stopAsync_then_noop_witness :
  IBController.stopAsync (lib := Example.pylib) ibcontroller_stopped world3
  = (Ok tt, ibcontroller_stopped, world3)
  /\ IBController.terminateAsync ibcontroller_stopped world3
     = (Ok tt, ibcontroller_stopped, world3).
Proof.
  assert (Hs : slots_ok Example.ibcontroller1) by reflexivity.
  assert (E : IBController.stopAsync (lib := Example.pylib)
                Example.ibcontroller1 Example.world2
              = (Ok tt, ibcontroller_stopped, world3))
    by (vm_compute; reflexivity).
  destruct (@MoreFacts.stopAsync_then_noop Example.pylib
              Example.ibcontroller1 ibcontroller_stopped Example.world2
              world3 Hs E) as (_ & _ & H1 & H2).
  split; [exact H1|exact H2].
Defined.


Lemma onApiError_stops_and_schedules_witness :
  exists g',
    onApiError "Connection refused" Example.watchdog1 Example.world1
    = (Ok tt, stopped Example.watchdog1, g')
    /\ timers g' = [(1, CbStart)].
Proof.
  assert (H : constructed Example.watchdog1) by example_constructed.
  destruct (@MoreFacts.onApiError_stops_and_schedules Example.watchdog1
              Example.world1 "Connection refused" H)
    as (g' & E & _ & Ht & _).
  exists g'. split; [exact E|exact Ht].
Defined.

Lemma stop_twice_witness :
  exists g1 g2,
    stop Example.watchdog1 Example.world1
    = (Ok tt, stopped Example.watchdog1, g1)
    /\ stop (stopped Example.watchdog1) g1
       = (Ok tt, stopped Example.watchdog1, g2)
    /\ cancelled g2 = cancelled g1.
Proof.
  assert (H : constructed Example.watchdog1) by example_constructed.
  destruct (@MoreFacts.stop_twice Example.watchdog1 Example.world1 H)
    as (g1 & g2 & E1 & E2 & _ & _ & Hc & _).
  exists g1, g2. split; [exact E1|]. split; [exact E2|exact Hc].
Defined.

(** Error 1100, then the timer: process 0 is gone, process 1 runs. *)
Lemma restart_cycle_witness :
  constructed Example.watchdog1
  /\ watching Example.watchdog1
  /\ exists w2 g2,
       (onError 7 1100 "Connectivity lost" None ;;
        fire_timer (lib := Example.pylib)) Example.watchdog1 Example.world1
       = (Ok tt, w2, g2)
       /\ controller w2 = Some (CtlIBC (running 1 1 Example.ibc1))
       /\ In 0%nat (exited g2).
Proof.
  assert (H : constructed Example.watchdog1) by example_constructed.
  assert (Hwat : watching Example.watchdog1) by reflexivity.
  split; [exact H|]. split; [exact Hwat|].
  destruct (@MoreFacts.restart_cycle Example.pylib Example.watchdog1
              Example.world1 Example.ibc1 7 "Connectivity lost" None H
              Hwat eq_refl)
    as (w2 & g2 & E & _ & Hex & _ & Hup & _).
  exists w2, g2. split; [exact E|].
  split; [exact (proj1 (Hup eq_refl))|].
  apply Hex. reflexivity.
Defined.

Lemma construction_succeeds_iff_witness :
  exists w g', new Example.args0 Example.world0 = (Ok w, g').
Proof.
  apply (proj1 (MoreFacts.construction_succeeds_iff Example.args0
                  Example.world0)).
  cbn. repeat split; try discriminate; lia.
Defined.


(** The monitor of the started IBC on the line [b' hi\n']. *)
Lemma monitorAsync_only_logs_witness :
  snd (fst (IBC.monitorAsync [quiet [32; 104; 105; 10]] Example.ibc1
                             Example.world1))
  = Example.ibc1.
Proof.
  pose proof (proj1 MoreFacts.monitorAsync_only_logs
                [quiet [32; 104; 105; 10]] Example.ibc1 Example.world1)
    as H.
  destruct (IBC.monitorAsync [quiet [32; 104; 105; 10]] Example.ibc1
                             Example.world1) as [[st self'] g'].
  destruct H as (_ & _ & H). cbn [fst snd]. apply H.
  intros r [<-|[]] o. reflexivity.
Defined.

Lemma monitorAsync_forwards_text_witness :
  IBC.monitorAsync [quiet [32; 104; 105; 10]; quiet []] Example.ibc1
                   Example.world1
  = (Returned, Example.ibc1,
     emit (Log IBC.logger DEBUG "hi") Example.world1).
Proof.
  assert (Hp : _proc Example.ibc1 <> None) by discriminate.
  assert (Hl : forall line, In line [[32; 104; 105; 10]] -> text_line line).
  { intros line [<-|[]]. split; discriminate. }
  destruct (proj1 MoreFacts.monitorAsync_forwards_text
              [[32; 104; 105; 10]] Example.ibc1 Example.world1 Hp Hl)
    as (_ & H & _).
  exact (H []).
Defined.

(** A user id with the password flag inside it. *)
Lemma IBC_command_not_quoted_witness :
  IBC.shell_command false
    (with_credentials (PyStr "edemo --pw=demouser") PyNone
       (attrs Example.ibc0))
  = IBC.shell_command false
      (with_credentials (PyStr "edemo") (PyStr "demouser")
         (attrs Example.ibc0)).
Proof.
  assert (Hu : "edemo" <> "") by discriminate.
  assert (Hp : "demouser" <> "") by discriminate.
  exact (@MoreFacts.IBC_command_not_quoted (attrs Example.ibc0) false
           "edemo" "demouser" Hu Hp).
Defined.

Lemma IBController_with_block_witness :
  match IBController.__enter__ (lib := Example.pylib)
          (IBController.__init__ []) Example.world0 with
  | (Raise _, o1, g1) =>
      _proc o1 = None
      /\ spawned (trace g1) = spawned (trace Example.world0)
  | (Ok r, o1, g1) =>
      r = o1
      /\ _proc o1 = Some (next_pid Example.world0)
      /\ _monitor o1 = Some (next_tid Example.world0)
      /\ In (next_pid Example.world0) (spawned (trace g1))
      /\ forall (g_body : world) (exc : option exn),
           exists g2,
             IBController.__exit__ exc o1 g_body
             = (Ok tt, mkObj (attrs o1) None None, g2)
             /\ In (next_pid Example.world0) (exited g2)
             /\ In (next_tid Example.world0) (cancelled g2)
  end.
Proof.
  exact (@MoreFacts.IBController_with_block Example.pylib
           (IBController.__init__ []) Example.world0 eq_refl).
Defined.

End MoreExample.
